(** * GDP growth forecaster: feature construction, validation, timeline

    A shallow embedding of the pipeline pieces of the repository:

    - [create_lagged_features] and [temporal_train_test_split]
      (pandas code of BEFORE_AFTER_COMPARISON.md),
    - [validate_prediction_input] and the [predict] route (same file),
    - [addPredictionToTimeline] (design document of the integration),
    - [handlePredict] and the submit button of dashboard.tsx,
    - [handleCountryChange], [handleReset] and [getRecentTrend] of
      dashboard.tsx, [transformHistoricalData] and the request of the
      design document, and the [predict] route as it was before
      validation.

    Data frames are lists of rows, a cell is [option Q] with [None] for
    pandas' NaN, dictionaries are [gmap]s, a Python or JavaScript
    double is taken with its exact value, a rational, and a string
    holds the UTF-8 bytes of a text. *)

From Stdlib Require Import ZArith QArith Qround Qabs Lqa String Ascii List
  Sorted OrderedTypeEx DecimalString DecimalZ DecimalPos.
From stdpp Require Import base gmap strings list sorting.

Local Open Scope Z_scope.
Local Open Scope string_scope.

(** ** Part I. The programs *)

(** *** Data frames of the training corpus *)
Module Frame.

(** A numeric cell; [None] is NaN. *)
Definition cell : Type := option Q.

Record Row : Type := mkRow {
  Country : string;
  Year : Z;
  GDP_Growth_Rate : cell;
  Population_Growth_Rate : cell;
  Exports_Growth_Rate : cell;
  Imports_Growth_Rate : cell;
  Investment_Growth_Rate : cell;
  Consumption_Growth_Rate : cell;
  Govt_Spend_Growth_Rate : cell
}.

(** The frame after the six [_Lag1] columns have been attached. *)
Record LaggedRow : Type := mkLagged {
  obs : Row;
  Population_Growth_Rate_Lag1 : cell;
  Exports_Growth_Rate_Lag1 : cell;
  Imports_Growth_Rate_Lag1 : cell;
  Investment_Growth_Rate_Lag1 : cell;
  Consumption_Growth_Rate_Lag1 : cell;
  Govt_Spend_Growth_Rate_Lag1 : cell
}.

(** [df.sort_values(['Country', 'Year'])]: lexicographic on the two
    keys, strings compared code point by code point, stable. *)
Definition key_leb (r1 r2 : Row) : bool :=
  match String.compare (Country r1) (Country r2) with
  | Lt => true
  | Eq => (Year r1 <=? Year r2)%Z
  | Gt => false
  end.

Definition key_le (r1 r2 : Row) : Prop := key_leb r1 r2 = true.

#[global] Instance key_le_dec : RelDecision key_le :=
  fun r1 r2 => decide (key_leb r1 r2 = true).

Definition sort_values (df : list Row) : list Row := merge_sort key_le df.

(** [df.groupby('Country')[col].shift(1)]: walking the frame in order,
    each row receives the value its group showed last; [last] is the
    dictionary of those values, and a group's first row gets nothing. *)
Fixpoint shift_from {A} (col : Row -> A) (last : gmap string A)
    (df : list Row) : list (option A) :=
  match df with
  | [] => []
  | r :: df' =>
      last !! Country r :: shift_from col (<[Country r := col r]> last) df'
  end.

Definition groupby_shift {A} (col : Row -> A) (df : list Row)
    : list (option A) :=
  shift_from col ∅ df.

(** [df[name] = column]; a missing shifted value reads as NaN. *)
Definition assign {R} (set : cell -> R -> R) (df : list R)
    (col : list (option cell)) : list R :=
  zip_with (fun r v => set (mjoin v) r) df col.

Definition no_lags (r : Row) : LaggedRow :=
  mkLagged r None None None None None None.

Definition set_Population_Lag1 (v : cell) (x : LaggedRow) : LaggedRow :=
  mkLagged (obs x) v (Exports_Growth_Rate_Lag1 x)
    (Imports_Growth_Rate_Lag1 x) (Investment_Growth_Rate_Lag1 x)
    (Consumption_Growth_Rate_Lag1 x) (Govt_Spend_Growth_Rate_Lag1 x).
Definition set_Exports_Lag1 (v : cell) (x : LaggedRow) : LaggedRow :=
  mkLagged (obs x) (Population_Growth_Rate_Lag1 x) v
    (Imports_Growth_Rate_Lag1 x) (Investment_Growth_Rate_Lag1 x)
    (Consumption_Growth_Rate_Lag1 x) (Govt_Spend_Growth_Rate_Lag1 x).
Definition set_Imports_Lag1 (v : cell) (x : LaggedRow) : LaggedRow :=
  mkLagged (obs x) (Population_Growth_Rate_Lag1 x)
    (Exports_Growth_Rate_Lag1 x) v (Investment_Growth_Rate_Lag1 x)
    (Consumption_Growth_Rate_Lag1 x) (Govt_Spend_Growth_Rate_Lag1 x).
Definition set_Investment_Lag1 (v : cell) (x : LaggedRow) : LaggedRow :=
  mkLagged (obs x) (Population_Growth_Rate_Lag1 x)
    (Exports_Growth_Rate_Lag1 x) (Imports_Growth_Rate_Lag1 x) v
    (Consumption_Growth_Rate_Lag1 x) (Govt_Spend_Growth_Rate_Lag1 x).
Definition set_Consumption_Lag1 (v : cell) (x : LaggedRow) : LaggedRow :=
  mkLagged (obs x) (Population_Growth_Rate_Lag1 x)
    (Exports_Growth_Rate_Lag1 x) (Imports_Growth_Rate_Lag1 x)
    (Investment_Growth_Rate_Lag1 x) v (Govt_Spend_Growth_Rate_Lag1 x).
Definition set_Govt_Spend_Lag1 (v : cell) (x : LaggedRow) : LaggedRow :=
  mkLagged (obs x) (Population_Growth_Rate_Lag1 x)
    (Exports_Growth_Rate_Lag1 x) (Imports_Growth_Rate_Lag1 x)
    (Investment_Growth_Rate_Lag1 x) (Consumption_Growth_Rate_Lag1 x) v.

(** [df.dropna()]: a row survives when none of its cells is NaN. *)
Definition notna (v : cell) : bool :=
  match v with Some _ => true | None => false end.

Definition row_notna (r : Row) : bool :=
  notna (GDP_Growth_Rate r) && notna (Population_Growth_Rate r)
  && notna (Exports_Growth_Rate r) && notna (Imports_Growth_Rate r)
  && notna (Investment_Growth_Rate r) && notna (Consumption_Growth_Rate r)
  && notna (Govt_Spend_Growth_Rate r).

Definition lagged_notna (x : LaggedRow) : bool :=
  row_notna (obs x)
  && notna (Population_Growth_Rate_Lag1 x)
  && notna (Exports_Growth_Rate_Lag1 x)
  && notna (Imports_Growth_Rate_Lag1 x)
  && notna (Investment_Growth_Rate_Lag1 x)
  && notna (Consumption_Growth_Rate_Lag1 x)
  && notna (Govt_Spend_Growth_Rate_Lag1 x).

Definition dropna (df : list LaggedRow) : list LaggedRow :=
  List.filter lagged_notna df.

Definition create_lagged_features (df : list Row) : list LaggedRow :=
  let df := sort_values df in
  let fr := no_lags <$> df in
  let fr := assign set_Population_Lag1 fr
              (groupby_shift Population_Growth_Rate df) in
  let fr := assign set_Exports_Lag1 fr
              (groupby_shift Exports_Growth_Rate df) in
  let fr := assign set_Imports_Lag1 fr
              (groupby_shift Imports_Growth_Rate df) in
  let fr := assign set_Investment_Lag1 fr
              (groupby_shift Investment_Growth_Rate df) in
  let fr := assign set_Consumption_Lag1 fr
              (groupby_shift Consumption_Growth_Rate df) in
  let fr := assign set_Govt_Spend_Lag1 fr
              (groupby_shift Govt_Spend_Growth_Rate df) in
  dropna fr.

(** [temporal_train_test_split]: two boolean masks on [Year], each
    applied to the frame in its own order. *)
Definition temporal_train_test_split (df : list LaggedRow)
    (split_year : Z) : list LaggedRow * list LaggedRow :=
  let train_df := List.filter (fun r => (Year (obs r) <? split_year)%Z) df in
  let test_df := List.filter (fun r => (Year (obs r) >=? split_year)%Z) df in
  (train_df, test_df).

End Frame.

(** *** Vocabulary of the statements about frames *)
Module FrameSpec.
Import Frame.
Local Open Scope list_scope.

(** The rows of one entity, in frame order. *)
Definition entity (c : string) (df : list Row) : list Row :=
  filter (fun r => Country r = c) df.

(** A row together with the row its lag columns are read from. *)
Definition lagged (r : Row) (p : option Row) : LaggedRow :=
  mkLagged r (p ≫= Population_Growth_Rate) (p ≫= Exports_Growth_Rate)
    (p ≫= Imports_Growth_Rate) (p ≫= Investment_Growth_Rate)
    (p ≫= Consumption_Growth_Rate) (p ≫= Govt_Spend_Growth_Rate).

(** A chronologically ordered per-entity stream: whenever two records
    of one entity follow each other in the stream, however far apart,
    the later one carries the larger year. *)
Definition before (r1 r2 : Row) : Prop :=
  Country r1 = Country r2 -> Year r1 < Year r2.

Definition chronological (df : list Row) : Prop :=
  StronglySorted before df.

#[global] Instance before_dec : RelDecision before.
Proof. intros r1 r2. unfold before. apply _. Defined.

(** Largest and smallest year of a partition, if it has a row. *)
Definition max_year (df : list LaggedRow) : option Z :=
  foldr (fun r acc => Some (from_option (Z.max (Year (obs r)))
                              (Year (obs r)) acc)) None df.
Definition min_year (df : list LaggedRow) : option Z :=
  foldr (fun r acc => Some (from_option (Z.min (Year (obs r)))
                              (Year (obs r)) acc)) None df.

(** A two-country stream, already in year order within each country,
    with a hole at 2001 for "A". *)
Definition num (n : Z) : cell := Some (inject_Z n).

Definition a2000 : Row :=
  mkRow "A" 2000 (num 21) (num 22) (num 23) (num 24) (num 25) (num 26)
    (num 27).
Definition a2002 : Row :=
  mkRow "A" 2002 (num 11) (num 12) (num 13) (num 14) (num 15) (num 16)
    (num 17).
Definition b2000 : Row :=
  mkRow "B" 2000 (num 31) (num 32) (num 33) (num 34) (num 35) (num 36)
    (num 37).
Definition b2001 : Row :=
  mkRow "B" 2001 (num 1) (num 2) (num 3) (num 4) (num 5) (num 6) (num 7).

Definition gap_df : list Row := [b2000; a2000; b2001; a2002].

Definition split_df : list LaggedRow :=
  [lagged a2002 (Some a2000); lagged b2001 (Some b2000)].

End FrameSpec.

(** *** Doubles *)
Module Double.
Local Open Scope Z_scope.

(** The least power of two beyond the doubles. *)
Definition huge : Z := 2 ^ 1024.

(** [float(n)] on a Python integer: the double nearest to [n], a tie
    going to the even mantissa, given by its integer value; [None] is
    the OverflowError of an integer that rounds past the largest
    double. *)
Definition float_of_int (n : Z) : option Z :=
  let a := Z.abs n in
  let shift := Z.log2 a - 52 in
  if shift <=? 0 then Some n
  else
    let q := a / 2 ^ shift in
    let r := a mod 2 ^ shift in
    let half := 2 ^ (shift - 1) in
    let m := if (half <? r) || ((r =? half) && Z.odd q) then q + 1 else q in
    let v := m * 2 ^ shift in
    if huge <=? v then None else Some (Z.sgn n * v).

(** The integer nearest to [x], a tie going to the even one. *)
Definition nearest_even (x : Q) : Z :=
  let lo := Qfloor x in
  match (x ?= inject_Z lo + (1 # 2))%Q with
  | Lt => lo
  | Eq => if Z.even lo then lo else lo + 1
  | Gt => lo + 1
  end.

(** The integer part of the binary logarithm of a positive [x]. *)
Definition floor_log2 (x : Q) : Z :=
  let k := Z.log2 (Qnum x) - Z.log2 (Zpos (Qden x)) in
  if Qle_bool (2 ^ k) x then k else k - 1.

(** The result of an arithmetic operation whose exact value is [x]:
    the nearest double, a tie going to the even mantissa, subnormal
    below 2^-1022; a value that rounds past the largest double gives
    [huge] with its sign, which stands for the infinity. *)
Definition round_double (x : Q) : Q :=
  if Qeq_bool x 0 then 0%Q
  else
    let a := Qabs x in
    let e := Z.max (floor_log2 a - 52) (-1074) in
    let ulp := (2 ^ e)%Q in
    let m := nearest_even (a / ulp) in
    let r := Qred (inject_Z m * ulp) in
    let r := if Qle_bool (inject_Z huge) r then inject_Z huge else r in
    if Qle_bool 0 x then r else Qopp r.

(** The rationals that stand for an infinity. *)
Definition infinite (x : Q) : bool := Qle_bool (inject_Z huge) (Qabs x).

End Double.

(** *** The prediction endpoint (Flask) *)
Module Api.

(** A Python float: a double with its exact value, or one of the
    three special values. *)
Inductive pyfloat : Type :=
| Fin (x : Q)
| PosInf
| NegInf
| NaN.

(** What [request.get_json()] can hold. *)
#[warnings="-register-all"]
Inductive json : Type :=
| JNull
| JBool (b : bool)
| JInt (n : Z)
| JFloat (x : pyfloat)
| JStr (s : string)
| JArr (l : list json)
| JObj (o : list (string * json)).

(** Exceptions that leave a function uncaught. *)
Inductive exn : Type :=
| KeyError (key : string)
| TypeError (reason : string)
| ModelError (reason : string)
| OverflowError (reason : string).

Inductive outcome (A : Type) : Type :=
| Return (a : A)
| Raise (e : exn).
Arguments Return {A} a.
Arguments Raise {A} e.

#[global] Instance outcome_bind : MBind outcome :=
  fun A B (k : A -> outcome B) (m : outcome A) =>
    match m with
    | Return a => k a
    | Raise e => Raise e
    end.

(** [validated_data]: the stripped country under ['Country'] and one
    float under each numeric field name. *)
Record validated : Type := mkValidated {
  v_Country : string;
  v_values : gmap string pyfloat
}.

Record response : Type := mkResponse {
  status : Z;
  body : list (string * json)
}.

Definition required_fields : list string :=
  ["Country"; "Population"; "Exports"; "Imports";
   "Investment"; "Consumption"; "Govt_Spend"].

Definition numeric_fields : list string :=
  ["Population"; "Exports"; "Imports";
   "Investment"; "Consumption"; "Govt_Spend"].

(** [d[k]] *)
Definition getitem {V} (d : gmap string V) (k : string) : outcome V :=
  match d !! k with
  | Some v => Return v
  | None => Raise (KeyError k)
  end.

(** [k not in d] *)
Definition not_in {V} (k : string) (d : gmap string V) : bool :=
  match d !! k with
  | Some _ => false
  | None => true
  end.

(** [d[...]] on a value that may be [None]. *)
Definition subscriptable {A} (d : option A) : outcome A :=
  match d with
  | Some d => Return d
  | None => Raise (TypeError "'NoneType' object is not subscriptable")
  end.

(** [-100 <= value <= 100]; every comparison with NaN is false. *)
Definition in_range (value : pyfloat) : bool :=
  match value with
  | Fin x => Qle_bool (-100) x && Qle_bool x 100
  | PosInf | NegInf | NaN => false
  end.

(** [str.strip()]. A string holds the UTF-8 bytes of a text, and the
    white space is that of [str.isspace]: U+0009 to U+000D, U+001C to
    U+0020, U+0085, U+00A0, U+1680, U+2000 to U+200A, U+2028, U+2029,
    U+202F, U+205F and U+3000, each in UTF-8. *)
Definition utf8 (bytes : list N) : list ascii := ascii_of_N <$> bytes.

Definition whitespace : list (list ascii) :=
  utf8 <$>
    [ [9]; [10]; [11]; [12]; [13]; [28]; [29]; [30]; [31]; [32];
      [194; 133]; [194; 160]; [225; 154; 128];
      [226; 128; 128]; [226; 128; 129]; [226; 128; 130]; [226; 128; 131];
      [226; 128; 132]; [226; 128; 133]; [226; 128; 134]; [226; 128; 135];
      [226; 128; 136]; [226; 128; 137]; [226; 128; 138];
      [226; 128; 168]; [226; 128; 169]; [226; 128; 175];
      [226; 129; 159]; [227; 128; 128] ]%N.

(** What follows the prefix [p] in [s]. *)
Fixpoint after_prefix (p s : list ascii) : option (list ascii) :=
  match p, s with
  | [], _ => Some s
  | a :: p', b :: s' => if Ascii.eqb a b then after_prefix p' s' else None
  | _ :: _, [] => None
  end.

(** What follows one leading character of [ws]. *)
Definition skip (ws : list (list ascii)) (s : list ascii)
    : option (list ascii) :=
  foldr (fun w found =>
           match after_prefix w s with
           | Some rest => Some rest
           | None => found
           end) None ws.

(** Leading characters of [ws] are skipped; the length of the text is
    fuel enough. *)
Fixpoint skip_all (ws : list (list ascii)) (fuel : nat) (s : list ascii)
    : list ascii :=
  match fuel with
  | O => s
  | S fuel' =>
      match skip ws s with
      | Some rest => skip_all ws fuel' rest
      | None => s
      end
  end.

Definition lstrip_bytes (s : list ascii) : list ascii :=
  skip_all whitespace (length s) s.

(** The same from the end: a text ends with a character exactly when
    its bytes end with the bytes of the character. *)
Definition rstrip_bytes (s : list ascii) : list ascii :=
  rev (skip_all (@rev ascii <$> whitespace) (length s) (rev s)).

Definition lstrip (s : string) : string :=
  string_of_list_ascii (lstrip_bytes (list_ascii_of_string s)).

Definition rstrip (s : string) : string :=
  string_of_list_ascii (rstrip_bytes (list_ascii_of_string s)).

Definition strip (s : string) : string :=
  string_of_list_ascii
    (rstrip_bytes (lstrip_bytes (list_ascii_of_string s))).

(** [round(x, 2)]: to the nearest hundredth, a tie going to the even
    one. *)
Definition round_half_even (x : Q) : Q :=
  let scaled := (x * 100)%Q in
  let lo := Qfloor scaled in
  let n :=
    match (scaled ?= inject_Z lo + (1 # 2))%Q with
    | Lt => lo
    | Eq => if Z.even lo then lo else lo + 1
    | Gt => lo + 1
    end in
  (n # 100)%Q.

Definition py_round2 (x : pyfloat) : pyfloat :=
  match x with
  | Fin x => Fin (round_half_even x)
  | other => other
  end.

Section Runtime.
(** [float(s)] on a [str]; [None] stands for [ValueError]. *)
Variable float_of_str : string -> option pyfloat.
(** [str(v)] on a value that is not a [str]; on a float it is what an
    f-string prints. *)
Variable repr : json -> string.

(** [float(v)] under [except (ValueError, TypeError)]: the value, or
    [None] for one of the two exceptions the handler catches; the
    OverflowError of an integer beyond the doubles is not caught. *)
Definition py_float (v : json) : outcome (option pyfloat) :=
  match v with
  | JInt n =>
      match Double.float_of_int n with
      | Some x => Return (Some (Fin (inject_Z x)))
      | None => Raise (OverflowError "int too large to convert to float")
      end
  | JBool b => Return (Some (Fin (if b then 1 else 0)))
  | JFloat x => Return (Some x)
  | JStr s => Return (float_of_str s)
  | JNull | JArr _ | JObj _ => Return None
  end.

Definition py_str (v : json) : string :=
  match v with
  | JStr s => s
  | other => repr other
  end.

(** The loop over the six numeric fields. *)
Fixpoint validate_numeric (fields : list string) (data : gmap string json)
    (validated_data : validated)
    : outcome (bool * option string * option validated) :=
  match fields with
  | [] => Return (true, None, Some validated_data)
  | field :: fields' =>
      raw ← getitem data field;
      converted ← py_float raw;
      match converted with
      | Some value =>
          if negb (in_range value)
          then Return (false,
                       Some (field ++ " value " ++ repr (JFloat value)
                             ++ " is outside reasonable range"),
                       None)
          else validate_numeric fields' data
                 (mkValidated (v_Country validated_data)
                    (<[field := value]> (v_values validated_data)))
      | None =>
          Return (false,
                  Some ("Invalid " ++ field ++ " value: must be a number"),
                  None)
      end
  end.

Definition validate_prediction_input (data : gmap string json)
    : outcome (bool * option string * option validated) :=
  let missing := List.filter (fun f => not_in f data) required_fields in
  match missing with
  | _ :: _ =>
      Return (false,
              Some ("Missing required fields: "
                    ++ String.concat ", " missing),
              None)
  | [] =>
      country ← getitem data "Country";
      let validated_data := mkValidated (strip (py_str country)) ∅ in
      if String.eqb (v_Country validated_data) ""
      then Return (false, Some "Country name cannot be empty", None)
      else validate_numeric numeric_fields data validated_data
  end.

(** The label encoder ([encoder.transform] fails on an unseen label)
    and the trained model ([model.predict] may raise). *)
Variable encoder : gmap string Z.
Variable model_predict : list pyfloat -> outcome pyfloat.

(** [features = [...]]: the country code, then the six validated
    values in the order of the numeric fields. *)
Fixpoint feature_values (fields : list string)
    (values : gmap string pyfloat) : outcome (list pyfloat) :=
  match fields with
  | [] => Return []
  | field :: fields' =>
      x ← getitem values field;
      xs ← feature_values fields' values;
      Return (x :: xs)
  end.

Definition opt_str (s : option string) : json :=
  match s with
  | Some s => JStr s
  | None => JNull
  end.

(** The route. The listing elides two lists, [required_fields: [...]]
    of the first answer and [features = [...]]; the validator's list of
    names stands for the first, and the second is the feature list of
    the earlier route. *)
Definition predict (data : gmap string json) : outcome response :=
  r ← validate_prediction_input data;
  let '(is_valid, error_msg, validated_data) := r in
  if negb is_valid
  then Return (mkResponse 400
         [("error", JStr "Invalid input");
          ("message", opt_str error_msg);
          ("required_fields", JArr (JStr <$> required_fields))])
  else
    validated_data ← subscriptable validated_data;
    match encoder !! v_Country validated_data with
    | None =>
        Return (mkResponse 400
          [("error", JStr "Unknown country");
           ("message", JStr ("Country '" ++ v_Country validated_data
                             ++ "' not found"))])
    | Some country_code =>
        xs ← feature_values numeric_fields (v_values validated_data);
        prediction ← model_predict (Fin (inject_Z country_code) :: xs);
        Return (mkResponse 200
          [("growth", JFloat (py_round2 prediction));
           ("method", JStr "AI Model");
           ("country", JStr (v_Country validated_data))])
    end.
End Runtime.

End Api.

(** *** The chart timeline (front end) *)
Module Timeline.

(** A JavaScript number: a double idealised as a rational; [None] is
    NaN, which every arithmetic operation passes on. *)
Definition number : Type := option Q.

(** [a * b] on doubles. An operand is read as the double nearest to
    it, so that the literal 1.05 is the double the source text denotes;
    the exact product is rounded to the nearest double; an infinite
    operand gives the infinity of the product's sign, or NaN against
    zero. *)
Definition times (a b : number) : number :=
  x ← a; y ← b;
  let x := Double.round_double x in
  let y := Double.round_double y in
  if Double.infinite x || Double.infinite y
  then if Qeq_bool (x * y) 0 then None
       else Some (if Qle_bool 0 (x * y) then inject_Z Double.huge
                  else - inject_Z Double.huge)%Q
  else Some (Double.round_double (x * y))%Q.
Definition minus (a b : number) : number :=
  x ← a; y ← b; Some (x - y)%Q.
Definition Math_abs (a : number) : number := Qabs <$> a.
Definition Math_max (a b : number) : number :=
  x ← a; y ← b; Some (if Qle_bool x y then y else x).
Definition Math_min (a b : number) : number :=
  x ← a; y ← b; Some (if Qle_bool x y then x else y).

(** [parseFloat(x.toFixed(2))]: the nearest hundredth, a tie going away
    from zero. *)
Definition round_fixed2 (x : Q) : Q :=
  if Qle_bool 0 x
  then Qfloor (x * 100 + (1 # 2)) # 100
  else (- Qfloor ((- x) * 100 + (1 # 2))) # 100.

Definition fixed2 (a : number) : number := round_fixed2 <$> a.

(** [n.toString()] on an integer. *)
Definition toString (n : Z) : string := NilZero.string_of_int (Z.to_int n).

Inductive point_type : Type := historical | prediction.

Record ChartDataPoint : Type := mkPoint {
  year : string;
  growth : number;
  type : point_type
}.

Record HistoricalDataPoint : Type := mkHistorical {
  Country : string;
  Year : Z;
  GDP_Growth : number;
  Exports_Growth : number;
  Imports_Growth : number
}.

Definition transformHistoricalData (backendData : list HistoricalDataPoint)
    : list ChartDataPoint :=
  (fun point => mkPoint (toString (Year point)) (fixed2 (GDP_Growth point))
                  historical) <$> backendData.

Definition addPredictionToTimeline (predictedGrowth : number)
    (existingData : list ChartDataPoint) : list ChartDataPoint :=
  let predictionPoints :=
    [ mkPoint "2025" (fixed2 predictedGrowth) prediction;
      mkPoint "2026" (fixed2 (times predictedGrowth (Some (105 # 100))))
        prediction ] in
  (existingData ++ predictionPoints)%list.

End Timeline.

(** *** The dashboard component (front end) *)
Module Dashboard.
Import Timeline.

Inductive jsval : Type :=
| VStr (s : string)
| VNum (n : number).

Record Contribution : Type := mkContribution {
  name : string;
  value : number;
  percentage : Z
}.

Record PredictionResponse : Type := mkPredictionResponse {
  predicted_gdp_growth : number;
  model_type : string
}.

(** The state variables [handlePredict] reads or sets. *)
Record State : Type := mkState {
  selectedCountry : string;
  populationGrowth : string;
  exportsGrowth : string;
  importsGrowth : string;
  investment : string;
  consumption : string;
  governmentSpending : string;
  isCalculating : bool;
  prediction : option number;
  historicalData : list ChartDataPoint;
  showPrediction : bool;
  confidenceScore : number;
  contributionData : list Contribution;
  predictionMethod : string;
  apiError : option string
}.

(** The setters of the state variables. *)
Definition setIsCalculating (v : bool) (s : State) : State :=
  mkState (selectedCountry s) (populationGrowth s) (exportsGrowth s)
    (importsGrowth s) (investment s) (consumption s) (governmentSpending s)
    v (prediction s) (historicalData s) (showPrediction s)
    (confidenceScore s) (contributionData s) (predictionMethod s)
    (apiError s).
Definition setPrediction (v : option number) (s : State) : State :=
  mkState (selectedCountry s) (populationGrowth s) (exportsGrowth s)
    (importsGrowth s) (investment s) (consumption s) (governmentSpending s)
    (isCalculating s) v (historicalData s) (showPrediction s)
    (confidenceScore s) (contributionData s) (predictionMethod s)
    (apiError s).
Definition setHistoricalData (v : list ChartDataPoint) (s : State) : State :=
  mkState (selectedCountry s) (populationGrowth s) (exportsGrowth s)
    (importsGrowth s) (investment s) (consumption s) (governmentSpending s)
    (isCalculating s) (prediction s) v (showPrediction s)
    (confidenceScore s) (contributionData s) (predictionMethod s)
    (apiError s).
Definition setShowPrediction (v : bool) (s : State) : State :=
  mkState (selectedCountry s) (populationGrowth s) (exportsGrowth s)
    (importsGrowth s) (investment s) (consumption s) (governmentSpending s)
    (isCalculating s) (prediction s) (historicalData s) v
    (confidenceScore s) (contributionData s) (predictionMethod s)
    (apiError s).
Definition setConfidenceScore (v : number) (s : State) : State :=
  mkState (selectedCountry s) (populationGrowth s) (exportsGrowth s)
    (importsGrowth s) (investment s) (consumption s) (governmentSpending s)
    (isCalculating s) (prediction s) (historicalData s) (showPrediction s) v
    (contributionData s) (predictionMethod s) (apiError s).
Definition setContributionData (v : list Contribution) (s : State) : State :=
  mkState (selectedCountry s) (populationGrowth s) (exportsGrowth s)
    (importsGrowth s) (investment s) (consumption s) (governmentSpending s)
    (isCalculating s) (prediction s) (historicalData s) (showPrediction s)
    (confidenceScore s) v (predictionMethod s) (apiError s).
Definition setPredictionMethod (v : string) (s : State) : State :=
  mkState (selectedCountry s) (populationGrowth s) (exportsGrowth s)
    (importsGrowth s) (investment s) (consumption s) (governmentSpending s)
    (isCalculating s) (prediction s) (historicalData s) (showPrediction s)
    (confidenceScore s) (contributionData s) v (apiError s).
Definition setApiError (v : option string) (s : State) : State :=
  mkState (selectedCountry s) (populationGrowth s) (exportsGrowth s)
    (importsGrowth s) (investment s) (consumption s) (governmentSpending s)
    (isCalculating s) (prediction s) (historicalData s) (showPrediction s)
    (confidenceScore s) (contributionData s) (predictionMethod s) v.

(** Requests that leave the browser. *)
Inductive call : Type :=
| SubmitPrediction (requestData : list (string * jsval))
| FetchHistoricalData (country : string).

(** [!s] on a string. *)
Definition falsy (s : string) : bool := String.eqb s "".

(** The condition of the early [return] of [handlePredict]. *)
Definition incomplete (s : State) : bool :=
  falsy (selectedCountry s) || falsy (populationGrowth s)
  || falsy (exportsGrowth s) || falsy (importsGrowth s)
  || falsy (investment s) || falsy (consumption s)
  || falsy (governmentSpending s).

(** The [disabled] attribute of the Generate Prediction button. *)
Definition predict_button_disabled (s : State) : bool :=
  falsy (selectedCountry s) || falsy (populationGrowth s)
  || falsy (exportsGrowth s) || falsy (importsGrowth s)
  || falsy (investment s) || falsy (consumption s)
  || falsy (governmentSpending s) || isCalculating s.

Definition is_prediction (d : ChartDataPoint) : bool :=
  match type d with Timeline.prediction => true | historical => false end.
Definition is_historical (d : ChartDataPoint) : bool :=
  match type d with historical => true | Timeline.prediction => false end.

Section Browser.
(** What travels in a rejected promise. *)
Variable error : Type.
Variable parseFloat : string -> number.
(** The functions of the API service the handler calls: each of the two
    requests resolves or rejects, and [handleApiError] is taken with the
    [message] of the error it builds. *)
Variable submitPrediction :
  list (string * jsval) -> PredictionResponse + error.
Variable fetchHistoricalData : string -> list HistoricalDataPoint + error.
Variable handleApiError : error -> string.

Definition requestData (s : State) : list (string * jsval) :=
  [ ("Country", VStr (selectedCountry s));
    ("Population_Growth_Rate", VNum (parseFloat (populationGrowth s)));
    ("Exports_Growth_Rate", VNum (parseFloat (exportsGrowth s)));
    ("Imports_Growth_Rate", VNum (parseFloat (importsGrowth s)));
    ("Investment_Growth_Rate", VNum (parseFloat (investment s)));
    ("Consumption_Growth_Rate", VNum (parseFloat (consumption s)));
    ("Govt_Spend_Growth_Rate", VNum (parseFloat (governmentSpending s))) ].

Definition lit (n d : Z) : number := Some (n # Z.to_pos d).

(** The part of the [try] block after the two awaits; state variables
    are read from [s], the values the render captured. *)
Definition show_result (s : State) (response : PredictionResponse)
    (st : State) : State :=
  let historicalOnly := List.filter is_historical (historicalData s) in
  let withPrediction :=
    addPredictionToTimeline (predicted_gdp_growth response) historicalOnly in
  let st := setHistoricalData withPrediction st in
  let pop := parseFloat (populationGrowth s) in
  let exp := parseFloat (exportsGrowth s) in
  let imp := parseFloat (importsGrowth s) in
  let inv := parseFloat (investment s) in
  let con := parseFloat (consumption s) in
  let gov := parseFloat (governmentSpending s) in
  let contributions :=
    [ mkContribution "Population" (times pop (lit 15 100)) 15;
      mkContribution "Exports" (times exp (lit 25 100)) 25;
      mkContribution "Trade Balance" (times (minus exp imp) (lit 2 10)) 20;
      mkContribution "Investment" (times inv (lit 2 10)) 20;
      mkContribution "Consumption" (times con (lit 15 100)) 15;
      mkContribution "Govt Spending" (times gov (lit 5 100)) 5 ] in
  let st := setContributionData contributions st in
  let consistency :=
    minus (minus (lit 100 1) (times (Math_abs (minus exp imp)) (lit 2 1)))
      (times (Math_abs (minus inv con)) (lit 15 10)) in
  let st :=
    setConfidenceScore (Math_max (lit 85 1) (Math_min (lit 98 1) consistency))
      st in
  setShowPrediction true st.

Definition handlePredict (s : State) : State * list call :=
  if incomplete s then (s, [])
  else
    let st := setApiError None (setIsCalculating true s) in
    let catch err st := setApiError (Some (handleApiError err)) st in
    let '(st, calls) :=
      match submitPrediction (requestData s) with
      | inr err => (catch err st, [SubmitPrediction (requestData s)])
      | inl response =>
          let st := setPrediction (Some (predicted_gdp_growth response)) st in
          let st := setPredictionMethod (model_type response) st in
          if (length (historicalData s) =? 0)%nat
             || forallb is_prediction (historicalData s)
          then
            match fetchHistoricalData (selectedCountry s) with
            | inr err =>
                (catch err st,
                 [SubmitPrediction (requestData s);
                  FetchHistoricalData (selectedCountry s)])
            | inl historical' =>
                let st :=
                  setHistoricalData (transformHistoricalData historical') st in
                (show_result s response st,
                 [SubmitPrediction (requestData s);
                  FetchHistoricalData (selectedCountry s)])
            end
          else
            (show_result s response st, [SubmitPrediction (requestData s)])
      end in
    (setIsCalculating false st, calls).

End Browser.

End Dashboard.

(** *** Vocabulary of the statements about the endpoint *)
Module ApiSpec.
Import Api.

(** A request body with the seven fields of the validator. *)
Definition payload (country population exports imports investment
    consumption govt_spend : json) : gmap string json :=
  list_to_map
    [ ("Country", country); ("Population", population);
      ("Exports", exports); ("Imports", imports);
      ("Investment", investment); ("Consumption", consumption);
      ("Govt_Spend", govt_spend) ].

Definition dec (n d : Z) : json := JFloat (Fin (n # Z.to_pos d)).

(** The out-of-range request of BEFORE_AFTER_COMPARISON.md: Population
    is 150. *)
Definition payload_150 : gmap string json :=
  payload (JStr "USA") (JInt 150) (JInt 0) (JInt 0) (JInt 0) (JInt 0)
    (JInt 0).



(** The scenario of the specification's seventh test. *)
Definition payload_brazil : gmap string json :=
  payload (JStr "Brazil") (dec 11 10) (dec 52 10) (dec 48 10) (dec 35 10)
    (dec 28 10) (dec 20 10).

(** A numeric field passes when it is a number within the bounds. *)
Definition passes (float_of_str : string -> option pyfloat)
    (data : gmap string json) (field : string) : Prop :=
  exists raw x, data !! field = Some raw
    /\ py_float float_of_str raw = Return (Some x) /\ in_range x = true.

(** A stand-in for the two runtime functions, enough for the example
    payloads: [float] reads plain integer literals, and [str] prints a
    float with an integral value. *)
Definition digit_of (a : ascii) : option Z :=
  let n := N_of_ascii a in
  if ((48 <=? n) && (n <=? 57))%N then Some (Z.of_N n - 48) else None.

Fixpoint digits_from (acc : Z) (s : string) : option Z :=
  match s with
  | EmptyString => Some acc
  | String a s' => d ← digit_of a; digits_from (10 * acc + d) s'
  end.

Definition example_float_of_str (s : string) : option pyfloat :=
  match s with
  | EmptyString => None
  | String a s' =>
      if Ascii.eqb a "-"
      then (if String.eqb s' "" then None
            else (fun n => Fin (inject_Z (- n))) <$> digits_from 0 s')
      else (fun n => Fin (inject_Z n)) <$> digits_from 0 s
  end.

Definition example_repr (v : json) : string :=
  match v with
  | JNull => "None"
  | JBool true => "True"
  | JBool false => "False"
  | JInt n => Timeline.toString n
  | JFloat (Fin x) => Timeline.toString (Qfloor x) ++ ".0"
  | JFloat PosInf => "inf"
  | JFloat NegInf => "-inf"
  | JFloat NaN => "nan"
  | JStr s => s
  | JArr _ => "[...]"
  | JObj _ => "{...}"
  end.

End ApiSpec.

(** *** Vocabulary of the statements about the front end *)
Module FrontSpec.
Import Timeline Dashboard.

(** A history that ends in 2021, as the corpus does. *)
Definition history_2021 : list ChartDataPoint :=
  transformHistoricalData
    [ mkHistorical "Brazil" 2020 (Some (-33 # 10)) (Some (-18 # 10))
        (Some (-95 # 10));
      mkHistorical "Brazil" 2021 (Some (4762 # 1000)) (Some (59 # 10))
        (Some (124 # 10)) ].

(** The wire names as the specification spells them. *)
Definition specified_wire_names : list string :=
  ["country"; "population_growth"; "exports_growth"; "imports_growth";
   "investment_growth"; "consumption_growth"; "govt_spend_growth"].

(** The wire names the dashboard writes. *)
Definition request_wire_names : list string :=
  ["Country"; "Population_Growth_Rate"; "Exports_Growth_Rate";
   "Imports_Growth_Rate"; "Investment_Growth_Rate";
   "Consumption_Growth_Rate"; "Govt_Spend_Growth_Rate"].

(** [JSON.stringify] of a request, as the endpoint reads it back; NaN
    travels as [null]. *)
Definition to_json (v : jsval) : Api.json :=
  match v with
  | VStr s => Api.JStr s
  | VNum (Some x) => Api.JFloat (Api.Fin x)
  | VNum None => Api.JNull
  end.

Definition request_body (requestData : list (string * jsval))
    : gmap string Api.json :=
  list_to_map (prod_map id to_json <$> requestData).

(** The country or one of the six indicator inputs is empty. *)
Definition some_input_empty (s : State) : Prop :=
  selectedCountry s = "" \/ populationGrowth s = "" \/ exportsGrowth s = ""
  \/ importsGrowth s = "" \/ investment s = "" \/ consumption s = ""
  \/ governmentSpending s = "".

(** A stand-in for [parseFloat], enough for the example inputs: plain
    decimal literals, anything else being NaN. *)
Fixpoint fraction_from (num : Z) (den : positive) (s : string) : number :=
  match s with
  | EmptyString => Some (num # den)
  | String a s' =>
      d ← ApiSpec.digit_of a; fraction_from (10 * num + d) (10 * den) s'
  end.

Fixpoint decimal_from (acc : Z) (s : string) : number :=
  match s with
  | EmptyString => Some (inject_Z acc)
  | String a s' =>
      if Ascii.eqb a "."
      then fraction_from acc 1 s'
      else d ← ApiSpec.digit_of a; decimal_from (10 * acc + d) s'
  end.

Definition example_parseFloat (s : string) : number :=
  match s with
  | EmptyString => None
  | String a s' =>
      if Ascii.eqb a "-" then Qopp <$> decimal_from 0 s'
      else decimal_from 0 s
  end.

(** The form filled in with the specification's scenario, before any
    request. *)
Definition filled_form : State :=
  mkState "Brazil" "1.1" "5.2" "4.8" "3.5" "2.8" "2.0" false None [] false
    (Some 94%Q) [] "" None.

(** The same form with the government spending input left empty. *)
Definition unfinished_form : State :=
  mkState "Brazil" "1.1" "5.2" "4.8" "3.5" "2.8" "" false None [] false
    (Some 94%Q) [] "" None.

End FrontSpec.

(** *** Further vocabulary about frames *)
Module FrameTerms.
Import Frame.

(** The two sort keys of a row. *)
Definition key (r : Row) : string * Z := (Country r, Year r).

(** One record per entity and year. *)
Definition distinct_keys (df : list Row) : Prop := NoDup (key <$> df).

(** The entities of a frame. *)
Definition entities (df : list Row) : gset string :=
  list_to_set (Country <$> df).

(** No cell of the frame is NaN. *)
Definition complete (df : list Row) : Prop :=
  Forall (fun r => row_notna r = true) df.

End FrameTerms.

Module ApiTerms.
Import Api ApiSpec.
Local Open Scope list_scope.

(** A field that holds an integer too large for a float. *)
Definition oversized (data : gmap string json) (field : string) : Prop :=
  exists n, data !! field = Some (JInt n) /\ Double.float_of_int n = None.

(** What [float] raises on such an integer. *)
Definition overflow : exn :=
  OverflowError "int too large to convert to float".

(** The payloads on which the validator reaches such an integer: no
    field is missing, the country is not blank, and the numeric fields
    before the integer's field pass. *)
Definition stops_at_oversized (float_of_str : string -> option pyfloat)
    (repr : json -> string) (data : gmap string json) : Prop :=
  (forall f, f ∈ required_fields -> is_Some (data !! f))
  /\ (exists country, data !! "Country" = Some country
        /\ strip (py_str repr country) <> "")
  /\ exists done field rest,
       numeric_fields = done ++ field :: rest
       /\ Forall (passes float_of_str data) done
       /\ oversized data field.

(** The scenario of the specification with a Population of 10^309. *)
Definition payload_oversized : gmap string json :=
  payload (JStr "Brazil") (JInt (10 ^ 309)) (dec 52 10) (dec 48 10)
    (dec 35 10) (dec 28 10) (dec 20 10).


End ApiTerms.

(** *** The other handlers of the dashboard *)
Module Page.
Import Timeline Dashboard.
Local Open Scope list_scope.

(** The setters of the seven inputs. *)
Definition setSelectedCountry (v : string) (s : State) : State :=
  mkState v (populationGrowth s) (exportsGrowth s)
    (importsGrowth s) (investment s) (consumption s) (governmentSpending s)
    (isCalculating s) (Dashboard.prediction s) (historicalData s)
    (showPrediction s) (confidenceScore s) (contributionData s)
    (predictionMethod s) (apiError s).
Definition setPopulationGrowth (v : string) (s : State) : State :=
  mkState (selectedCountry s) v (exportsGrowth s)
    (importsGrowth s) (investment s) (consumption s) (governmentSpending s)
    (isCalculating s) (Dashboard.prediction s) (historicalData s)
    (showPrediction s) (confidenceScore s) (contributionData s)
    (predictionMethod s) (apiError s).
Definition setExportsGrowth (v : string) (s : State) : State :=
  mkState (selectedCountry s) (populationGrowth s) v
    (importsGrowth s) (investment s) (consumption s) (governmentSpending s)
    (isCalculating s) (Dashboard.prediction s) (historicalData s)
    (showPrediction s) (confidenceScore s) (contributionData s)
    (predictionMethod s) (apiError s).
Definition setImportsGrowth (v : string) (s : State) : State :=
  mkState (selectedCountry s) (populationGrowth s) (exportsGrowth s)
    v (investment s) (consumption s) (governmentSpending s)
    (isCalculating s) (Dashboard.prediction s) (historicalData s)
    (showPrediction s) (confidenceScore s) (contributionData s)
    (predictionMethod s) (apiError s).
Definition setInvestment (v : string) (s : State) : State :=
  mkState (selectedCountry s) (populationGrowth s) (exportsGrowth s)
    (importsGrowth s) v (consumption s) (governmentSpending s)
    (isCalculating s) (Dashboard.prediction s) (historicalData s)
    (showPrediction s) (confidenceScore s) (contributionData s)
    (predictionMethod s) (apiError s).
Definition setConsumption (v : string) (s : State) : State :=
  mkState (selectedCountry s) (populationGrowth s) (exportsGrowth s)
    (importsGrowth s) (investment s) v (governmentSpending s)
    (isCalculating s) (Dashboard.prediction s) (historicalData s)
    (showPrediction s) (confidenceScore s) (contributionData s)
    (predictionMethod s) (apiError s).
Definition setGovernmentSpending (v : string) (s : State) : State :=
  mkState (selectedCountry s) (populationGrowth s) (exportsGrowth s)
    (importsGrowth s) (investment s) (consumption s) v
    (isCalculating s) (Dashboard.prediction s) (historicalData s)
    (showPrediction s) (confidenceScore s) (contributionData s)
    (predictionMethod s) (apiError s).

Definition handleReset (s : State) : State :=
  let s := setPopulationGrowth "" s in
  let s := setExportsGrowth "" s in
  let s := setImportsGrowth "" s in
  let s := setInvestment "" s in
  let s := setConsumption "" s in
  let s := setGovernmentSpending "" s in
  let s := setShowPrediction false s in
  setPrediction None s.

(** The state of the component: the variables of [State] together with
    the two that only [handleCountryChange] sets. *)
Record View : Type := mkView {
  form : State;
  isLoadingHistory : bool;
  historyError : option string
}.

Definition setForm (f : State -> State) (v : View) : View :=
  mkView (f (form v)) (isLoadingHistory v) (historyError v).
Definition setIsLoadingHistory (b : bool) (v : View) : View :=
  mkView (form v) b (historyError v).
Definition setHistoryError (e : option string) (v : View) : View :=
  mkView (form v) (isLoadingHistory v) e.

(** [array.slice(start, end)]: a negative index counts from the end of
    the array, and both are clamped to it. *)
Definition slice_index (len i : Z) : Z :=
  if (i <? 0)%Z then Z.max (len + i) 0 else Z.min i len.

Definition slice {A} (start end_ : Z) (l : list A) : list A :=
  let len := Z.of_nat (length l) in
  let k := slice_index len start in
  let final := slice_index len end_ in
  take (Z.to_nat (final - k)) (drop (Z.to_nat k) l).

(** [a + b] on doubles. An operand is read as the double nearest to
    it (a chart value of two decimals is the double [parseFloat] gave);
    the exact sum is rounded to the nearest double; an infinity stays,
    and two infinities of opposite signs give NaN. *)
Definition plus (a b : number) : number :=
  x ← a; y ← b;
  let x := Double.round_double x in
  let y := Double.round_double y in
  if Double.infinite x
  then if Double.infinite y && negb (Bool.eqb (Qle_bool 0 x) (Qle_bool 0 y))
       then None else Some x
  else if Double.infinite y then Some y
  else Some (Double.round_double (x + y))%Q.

(** [sum / n] on doubles, for a count [n]: the exact quotient rounded
    to the nearest double; the one division by zero that occurs is
    0 / 0, which is NaN. *)
Definition divide_by_count (sum : number) (n : nat) : number :=
  match n with
  | O => None
  | S _ =>
      x ← sum;
      let x := Double.round_double x in
      if Double.infinite x then Some x
      else Some (Double.round_double (x / inject_Z (Z.of_nat n)))%Q
  end.

(** [recent.reduce((sum, d) => sum + d.growth, 0) / recent.length] *)
Definition average (recent : list ChartDataPoint) : number :=
  divide_by_count
    (fold_left (fun sum d => plus sum (growth d)) recent (Some 0%Q))
    (length recent).

Section Browser.
Variable error : Type.
Variable fetchHistoricalData : string -> list HistoricalDataPoint + error.
Variable handleApiError : error -> string.
(** [generateHistoricalData] draws from [Math.random] and reads the
    name [countries], which no declaration of the module binds; it is
    taken with its result, the mock points or what it throws. *)
Variable generateHistoricalData : string -> list ChartDataPoint + error.
(** [x.toFixed(2)] as a string. *)
Variable toFixed2 : number -> string.

(** The handler with the requests it issued and, when its promise is
    rejected, what it is rejected with. *)
Definition handleCountryChange (country : string) (v : View)
    : View * list call * option error :=
  let v := setForm (setSelectedCountry country) v in
  let v := setIsLoadingHistory true v in
  let v := setHistoryError None v in
  let '(v, thrown) :=
    match fetchHistoricalData country with
    | inl data =>
        let transformed := transformHistoricalData data in
        (setForm (setHistoricalData transformed) v, None)
    | inr err =>
        let v := setHistoryError (Some (handleApiError err)) v in
        match generateHistoricalData country with
        | inl mockData => (setForm (setHistoricalData mockData) v, None)
        | inr thrown => (v, Some thrown)
        end
    end in
  (setIsLoadingHistory false v, [FetchHistoricalData country], thrown).

Definition getRecentTrend (s : State) : option string :=
  if (length (historicalData s) =? 0)%nat then None
  else
    let recent := slice (-6) (-2) (historicalData s) in
    let avgGrowth := average recent in
    Some (toFixed2 avgGrowth).

End Browser.

End Page.

(** *** Further vocabulary about the dashboard *)
Module PageTerms.
Import Timeline Dashboard Page.
Local Open Scope list_scope.

(** The test under which [handlePredict] fetches the history. *)
Definition history_missing (s : State) : bool :=
  (length (historicalData s) =? 0)%nat
  || forallb is_prediction (historicalData s).

(** The seven inputs of the form. *)
Definition inputs (s : State) : list string :=
  [selectedCountry s; populationGrowth s; exportsGrowth s; importsGrowth s;
   investment s; consumption s; governmentSpending s].

(** The two points a prediction adds. *)
Definition forecast (g : number) : list ChartDataPoint :=
  addPredictionToTimeline g [].

(** The four inputs the confidence score is computed from. *)
Definition confidence_inputs (s : State) : list string :=
  [exportsGrowth s; importsGrowth s; investment s; consumption s].

(** Stand-ins for the API service, enough for the examples: a service
    that answers, and one that is off line. *)
Definition example_history : list HistoricalDataPoint :=
  [ mkHistorical "Brazil" 2017 (Some (13 # 10)) (Some (49 # 10))
      (Some (67 # 10));
    mkHistorical "Brazil" 2018 (Some (18 # 10)) (Some (41 # 10))
      (Some (77 # 10));
    mkHistorical "Brazil" 2019 (Some (12 # 10)) (Some (-26 # 10))
      (Some (13 # 10));
    mkHistorical "Brazil" 2020 (Some (-33 # 10)) (Some (-18 # 10))
      (Some (-95 # 10));
    mkHistorical "Brazil" 2021 (Some (4762 # 1000)) (Some (59 # 10))
      (Some (124 # 10)) ].

Definition example_response : PredictionResponse :=
  mkPredictionResponse (Some (3456 # 1000)%Q) "AI Model".

Definition example_submit (_ : list (string * jsval))
    : PredictionResponse + unit := inl example_response.
Definition offline_submit (_ : list (string * jsval))
    : PredictionResponse + unit := inr tt.
Definition example_fetch (_ : string) : list HistoricalDataPoint + unit :=
  inl example_history.
Definition offline_fetch (_ : string) : list HistoricalDataPoint + unit :=
  inr tt.
Definition example_handleApiError (_ : unit) : string := "Network Error".
Definition broken_generateHistoricalData (_ : string)
    : list ChartDataPoint + unit := inr tt.

(** The filled form once the history of the country is on the chart. *)
Definition loaded_form : State :=
  setHistoricalData (transformHistoricalData example_history)
    FrontSpec.filled_form.

(** A stand-in for [toFixed(2)], for values below 10^21: the sign of
    the value, then the integer part and two digits of its nearest
    hundredth. *)
Definition example_toFixed2 (a : number) : string :=
  match a with
  | None => "NaN"
  | Some x =>
      if Double.infinite x
      then (if Qle_bool 0 x then "Infinity" else "-Infinity")
      else
        let digits := Z.abs (Qnum (round_fixed2 x)) in
        let cents := digits mod 100 in
        ((if Qle_bool 0 x then "" else "-")
         ++ toString (digits / 100) ++ "."
         ++ (if (cents <? 10)%Z then "0" else "") ++ toString cents)%string
  end.

End PageTerms.

(** *** The request of the design document *)
Module Design.
Import Timeline Dashboard.
Local Open Scope list_scope.

Section Browser.
Variable parseFloat : string -> number.

(** [requestData] as the design document's [handlePredict] builds it. *)
Definition requestData (s : State) : list (string * jsval) :=
  [ ("Country", VStr (selectedCountry s));
    ("Population", VNum (parseFloat (populationGrowth s)));
    ("Exports", VNum (parseFloat (exportsGrowth s)));
    ("Imports", VNum (parseFloat (importsGrowth s)));
    ("Investment", VNum (parseFloat (investment s)));
    ("Consumption", VNum (parseFloat (consumption s)));
    ("Govt_Spend", VNum (parseFloat (governmentSpending s))) ].

End Browser.

(** The six indicator inputs, in the order of the request. *)
Definition indicators (s : State) : list string :=
  [populationGrowth s; exportsGrowth s; importsGrowth s; investment s;
   consumption s; governmentSpending s].

(** An input that reads as a number within the validator's bounds. *)
Definition reads_in_range (parseFloat : string -> number) (input : string)
    : Prop :=
  exists x, parseFloat input = Some x /\ (-100 <= x <= 100)%Q.

End Design.

(** *** The route before validation *)
Module Before.
Import Api.
Local Open Scope list_scope.

(** What leaves the route: an exception of [exn], or a [ValueError];
    Flask answers either with status 500. *)
Inductive raised : Type :=
| Uncaught (e : exn)
| ValueError (reason : string).

Section Runtime.
Variable float_of_str : string -> option pyfloat.
Variable encoder : gmap string Z.
Variable model_predict : list pyfloat -> outcome pyfloat.

(** [encoder.transform([label])[0]]; the labels the encoder has seen
    are strings, so a label that is no string is unseen. *)
Definition transform (label : json) : Z + raised :=
  match label with
  | JStr s =>
      match encoder !! s with
      | Some country_code => inl country_code
      | None => inr (ValueError "y contains previously unseen labels")
      end
  | _ => inr (ValueError "y contains previously unseen labels")
  end.

(** [float(data[field])] *)
Definition float_field (data : gmap string json) (field : string)
    : pyfloat + raised :=
  match data !! field with
  | None => inr (Uncaught (KeyError field))
  | Some raw =>
      match py_float float_of_str raw with
      | Raise e => inr (Uncaught e)
      | Return (Some value) => inl value
      | Return None =>
          match raw with
          | JStr _ => inr (ValueError "could not convert string to float")
          | _ =>
              inr (Uncaught
                     (TypeError
                        "float() argument must be a string or a real number"))
          end
      end
  end.

(** The six conversions of the feature list, in their order. *)
Fixpoint float_fields (data : gmap string json) (fields : list string)
    : list pyfloat + raised :=
  match fields with
  | [] => inl []
  | field :: fields' =>
      match float_field data field with
      | inr e => inr e
      | inl x =>
          match float_fields data fields' with
          | inr e => inr e
          | inl xs => inl (x :: xs)
          end
      end
  end.

Definition predict (data : gmap string json) : response + raised :=
  match data !! "Country" with
  | None => inr (Uncaught (KeyError "Country"))
  | Some country =>
      match transform country with
      | inr e => inr e
      | inl country_code =>
          match float_fields data numeric_fields with
          | inr e => inr e
          | inl xs =>
              match model_predict (Fin (inject_Z country_code) :: xs) with
              | Raise e => inr (Uncaught e)
              | Return prediction =>
                  inl (mkResponse 200
                         [("growth", JFloat (py_round2 prediction))])
              end
          end
      end
  end.

End Runtime.

End Before.

(** ** Part II. Properties *)

Module DoubleFacts.
Import Double.
Local Open Scope Z_scope.

(** An integer of up to 53 bits is its own float. *)
Lemma float_of_int_exact (n : Z) :
  Z.abs n < 2 ^ 53 -> float_of_int n = Some n.
Proof.
  intros Hn. unfold float_of_int. cbv zeta.
  assert (Z.log2 (Z.abs n) - 52 <= 0) as Hs.
  { destruct (Z.eq_dec (Z.abs n) 0) as [->|Hz]; [by vm_compute|].
    assert (Z.log2 (Z.abs n) < 53); [|lia].
    apply Z.log2_lt_pow2; lia. }
  apply Z.leb_le in Hs. by rewrite Hs.
Qed.

Example float_of_int_examples :
  float_of_int 150 = Some 150
  /\ float_of_int (2 ^ 53 + 1) = Some (2 ^ 53)
  /\ float_of_int (2 ^ 53 + 3) = Some (2 ^ 53 + 4)
  /\ float_of_int (2 ^ 1024 - 2 ^ 970 - 1) = Some (2 ^ 1024 - 2 ^ 971)
  /\ float_of_int (2 ^ 1024 - 2 ^ 970) = None
  /\ float_of_int (10 ^ 309) = None
  /\ float_of_int (- 10 ^ 309) = None.
Proof. repeat split; by vm_compute. Qed.

Example round_double_examples :
  round_double (105 # 100) = (4728779608739021 # 4503599627370496)%Q
  /\ round_double (43 # 2) = (43 # 2)%Q
  /\ round_double ((43 # 2) * round_double (105 # 100))
     = (6354297599243059 # 281474976710656)%Q
  /\ Qle_bool (22575 # 1000)
       (round_double ((43 # 2) * round_double (105 # 100))) = false
  /\ round_double (1 # 2 ^ 1075) = 0%Q
  /\ round_double (3 # 2 ^ 1075) = (1 # 2 ^ 1073)%Q
  /\ round_double (inject_Z (2 ^ 1024 - 2 ^ 970)) = inject_Z huge
  /\ round_double (- inject_Z (10 ^ 400)) = (- inject_Z huge)%Q.
Proof. repeat split; by vm_compute. Qed.

End DoubleFacts.

Module ListFacts.

Lemma List_filter_as_filter {A} (f : A -> bool) (P : A -> Prop)
    `{forall x, Decision (P x)} (l : list A) :
  (forall x, f x = true <-> P x) -> List.filter f l = filter P l.
Proof.
  intros Hf. induction l as [|x l IH]; [done|].
  cbn [List.filter]. rewrite filter_cons, IH.
  destruct (f x) eqn:E; case_decide as HP; try done.
  - by apply Hf in E.
  - apply Hf in HP. congruence.
Qed.

End ListFacts.

Module FrameFacts.
Import ListFacts.
Import Frame FrameSpec.
Local Open Scope list_scope.

Lemma key_leb_total r1 r2 : key_leb r1 r2 = true \/ key_leb r2 r1 = true.
Proof.
  unfold key_leb. rewrite (String.compare_antisym (Country r2)).
  destruct (String.compare (Country r1) (Country r2)); simpl; auto.
  destruct (Z.leb_spec (Year r1) (Year r2)); auto.
  right. apply Z.leb_le. lia.
Qed.

Lemma compare_Eq_refl s : String.compare s s = Eq.
Proof. by apply String_as_OT.cmp_eq. Qed.

Lemma key_leb_trans r1 r2 r3 :
  key_leb r1 r2 = true -> key_leb r2 r3 = true -> key_leb r1 r3 = true.
Proof.
  unfold key_leb.
  destruct (String.compare (Country r1) (Country r2)) eqn:E12; [| |done].
  - apply String_as_OT.cmp_eq in E12. rewrite E12.
    destruct (String.compare (Country r2) (Country r3)); [|done..].
    rewrite !Z.leb_le. lia.
  - intros _.
    destruct (String.compare (Country r2) (Country r3)) eqn:E23; [| |done].
    + apply String_as_OT.cmp_eq in E23. rewrite <- E23, E12. done.
    + intros _. apply String_as_OT.cmp_lt in E12, E23.
      pose proof (String_as_OT.lt_trans _ _ _ E12 E23) as E13.
      apply String_as_OT.cmp_lt in E13. unfold String_as_OT.cmp in E13.
      by rewrite E13.
Qed.

#[local] Instance key_le_total : Total key_le.
Proof. intros r1 r2. apply key_leb_total. Qed.

#[local] Instance key_le_trans : Transitive key_le.
Proof. intros r1 r2 r3. apply key_leb_trans. Qed.

Lemma key_le_same_country r1 r2 :
  Country r1 = Country r2 -> key_le r1 r2 <-> Year r1 <= Year r2.
Proof.
  intros E. unfold key_le, key_leb. rewrite E, compare_Eq_refl.
  apply Z.leb_le.
Qed.

Lemma sort_values_sorted df : StronglySorted key_le (sort_values df).
Proof. apply StronglySorted_merge_sort; apply _. Qed.

Lemma sort_values_perm df : sort_values df ≡ₚ df.
Proof. apply merge_sort_Permutation. Qed.

(** The six shifted columns all read the same previous row. *)
Lemma shift_from_fmap {A} (col : Row -> A) (last : gmap string Row) df :
  shift_from col (col <$> last) df
  = fmap (M:=option) col <$> shift_from (@id Row) last df.
Proof.
  revert last. induction df as [|r df IH]; intros last; [done|].
  simpl. rewrite lookup_fmap. f_equal.
  rewrite <- IH. by rewrite fmap_insert.
Qed.

Lemma groupby_shift_fmap {A} (col : Row -> A) df :
  groupby_shift col df
  = fmap (M:=option) col <$> groupby_shift (@id Row) df.
Proof.
  unfold groupby_shift. rewrite <- shift_from_fmap. by rewrite fmap_empty.
Qed.

Lemma assign_all_lags (l : list Row) (ps : list (option Row)) :
  assign set_Govt_Spend_Lag1
    (assign set_Consumption_Lag1
      (assign set_Investment_Lag1
        (assign set_Imports_Lag1
          (assign set_Exports_Lag1
            (assign set_Population_Lag1 (no_lags <$> l)
              (fmap (M:=option) Population_Growth_Rate <$> ps))
            (fmap (M:=option) Exports_Growth_Rate <$> ps))
          (fmap (M:=option) Imports_Growth_Rate <$> ps))
        (fmap (M:=option) Investment_Growth_Rate <$> ps))
      (fmap (M:=option) Consumption_Growth_Rate <$> ps))
    (fmap (M:=option) Govt_Spend_Growth_Rate <$> ps)
  = zip_with lagged l ps.
Proof.
  revert ps. induction l as [|r l IH]; intros [|p ps]; try done.
  unfold assign in *. cbn [fmap list_fmap zip_with]. f_equal.
  - by destruct p.
  - apply IH.
Qed.

Lemma create_lagged_features_unfold df :
  create_lagged_features df =
    dropna (zip_with lagged (sort_values df)
              (groupby_shift (@id Row) (sort_values df))).
Proof.
  unfold create_lagged_features. cbv zeta.
  rewrite (groupby_shift_fmap Population_Growth_Rate),
    (groupby_shift_fmap Exports_Growth_Rate),
    (groupby_shift_fmap Imports_Growth_Rate),
    (groupby_shift_fmap Investment_Growth_Rate),
    (groupby_shift_fmap Consumption_Growth_Rate),
    (groupby_shift_fmap Govt_Spend_Growth_Rate).
  by rewrite assign_all_lags.
Qed.

(** Group by group, the shifted column is the group itself moved down
    by one place. *)
Lemma shift_from_entity c (last : gmap string Row) df :
  filter (fun x => Country (obs x) = c)
    (zip_with lagged df (shift_from (@id Row) last df))
  = zip_with lagged (entity c df) (last !! c :: (Some <$> entity c df)).
Proof.
  revert last. induction df as [|r df IH]; intros last; [done|].
  cbn [shift_from zip_with]. unfold entity in *.
  rewrite !filter_cons. cbn [obs lagged]. case_decide as E.
  - subst c. rewrite IH, lookup_insert_eq. done.
  - rewrite IH, lookup_insert_ne by done. done.
Qed.

Lemma filter_dropna c (l : list LaggedRow) :
  filter (fun x => Country (obs x) = c) (dropna l)
  = dropna (filter (fun x => Country (obs x) = c) l).
Proof.
  unfold dropna. induction l as [|x l IH]; [done|].
  cbn [List.filter]. rewrite filter_cons.
  destruct (lagged_notna x) eqn:N; case_decide;
    rewrite ?filter_cons; try case_decide; try done;
    cbn [List.filter]; rewrite ?N; by rewrite IH.
Qed.

(** What the builder emits for one entity. *)
Lemma create_lagged_features_entity c df :
  filter (fun x => Country (obs x) = c) (create_lagged_features df)
  = dropna (zip_with lagged (entity c (sort_values df))
              (None :: (Some <$> entity c (sort_values df)))).
Proof.
  rewrite create_lagged_features_unfold, filter_dropna.
  unfold groupby_shift. by rewrite shift_from_entity, lookup_empty.
Qed.

(** Members of a list zipped with itself moved down by one place. *)
Lemma elem_of_zip_shifted (l : list Row) (o : option Row) (x : LaggedRow) :
  x ∈ zip_with lagged l (o :: (Some <$> l)) <->
    (exists r l', l = r :: l' /\ x = lagged r o)
    \/ (exists l1 p r l2, l = l1 ++ p :: r :: l2 /\ x = lagged r (Some p)).
Proof.
  revert o. induction l as [|r l IH]; intros o.
  - cbn. split.
    + by intros ?%elem_of_nil.
    + intros [(? & ? & ? & _)|(l1 & ? & ? & ? & E & _)]; [done|].
      by destruct l1.
  - cbn [zip_with fmap list_fmap]. rewrite elem_of_cons, IH. split.
    + intros [->|[(r' & l' & -> & ->)|(l1 & p & r' & l2 & -> & ->)]].
      * left. eauto.
      * right. exists [], r, r', l'. done.
      * right. exists (r :: l1), p, r', l2. done.
    + intros [(r' & l' & E & ->)|(l1 & p & r' & l2 & E & ->)].
      * left. by simplify_eq.
      * right. destruct l1 as [|r0 l1]; simplify_eq/=.
        -- left. eauto.
        -- right. eauto 10.
Qed.

Lemma lagged_notna_None r : lagged_notna (lagged r None) = false.
Proof. unfold lagged_notna. cbn. by rewrite !andb_false_r. Qed.

Lemma lagged_notna_complete r p :
  row_notna r = true -> row_notna p = true ->
  lagged_notna (lagged r (Some p)) = true.
Proof.
  unfold lagged_notna, row_notna. cbn. intros -> Hp.
  repeat (apply andb_prop in Hp as [Hp ?]).
  by repeat (apply andb_true_intro; split).
Qed.

(** With no NaN among an entity's rows, [dropna] removes its first row
    and nothing else. *)
Lemma dropna_entity (E : list Row) :
  Forall (fun r => row_notna r = true) E ->
  dropna (zip_with lagged E (None :: (Some <$> E)))
  = zip_with lagged (tail E) (Some <$> E).
Proof.
  destruct E as [|e0 E]; [done|]. intros HE.
  cbn [zip_with fmap list_fmap tail]. unfold dropna. cbn [List.filter].
  rewrite lagged_notna_None. apply Forall_cons in HE as [H0 HE].
  assert (forall ps : list Row, Forall (fun r => row_notna r = true) ps ->
    List.filter lagged_notna (zip_with lagged E (Some <$> ps))
    = zip_with lagged E (Some <$> ps)) as Hall.
  { induction HE as [|r E Hr HE IH]; intros [|p ps] Hps; try done.
    apply Forall_cons in Hps as [Hp Hps].
    cbn [zip_with fmap list_fmap List.filter].
    rewrite lagged_notna_complete by done. f_equal. by apply IH. }
  apply (Hall (e0 :: E)). by constructor.
Qed.

Lemma obs_zip_lagged (l : list Row) (ps : list (option Row)) :
  (length l <= length ps)%nat -> obs <$> zip_with lagged l ps = l.
Proof.
  revert ps. induction l as [|r l IH]; intros [|p ps] Hlen; try done.
  - simpl in Hlen. lia.
  - cbn. f_equal. apply IH. simpl in Hlen. lia.
Qed.

(** A strictly sorted key column has no repeated key. *)
Lemma StronglySorted_lt_fmap_inj {A} (f : A -> Z) (l : list A) x y :
  StronglySorted Z.lt (f <$> l) -> x ∈ l -> y ∈ l -> f x = f y -> x = y.
Proof.
  induction l as [|a l IH]; [by intros _ ?%elem_of_nil|].
  cbn. intros [Ha Hl]%StronglySorted_cons.
  rewrite Forall_fmap, Forall_forall in Ha.
  intros [->|Hx]%elem_of_cons [->|Hy]%elem_of_cons E; auto.
  - apply Ha in Hy. simpl in Hy. lia.
  - apply Ha in Hx. simpl in Hx. lia.
Qed.

Lemma StronglySorted_filter {A} (R : relation A) (P : A -> Prop)
    `{forall x, Decision (P x)} (l : list A) :
  StronglySorted R l -> StronglySorted R (filter P l).
Proof.
  induction 1 as [|a l Hl IH Ha]; [constructor|].
  rewrite filter_cons. case_decide; [|done].
  constructor; [done|]. rewrite Forall_forall in Ha |- *.
  intros y [_ Hy]%list_elem_of_filter. by apply Ha.
Qed.

Lemma StronglySorted_year_key_le c (l : list Row) :
  Forall (fun r => Country r = c) l ->
  StronglySorted Z.lt (Year <$> l) -> StronglySorted key_le l.
Proof.
  induction 1 as [|r l Hr HC IH]; [intros _; constructor|].
  cbn. intros [Hhd Htl]%StronglySorted_cons.
  apply StronglySorted_cons. split; [|by apply IH].
  rewrite Forall_fmap in Hhd.
  rewrite Forall_forall in Hhd, HC. apply Forall_forall.
  intros y Hy. apply key_le_same_country.
  - rewrite Hr. symmetry. by apply HC.
  - specialize (Hhd y Hy). simpl in Hhd. lia.
Qed.

(** In a chronological stream every entity's years increase strictly. *)
Lemma chronological_entity c df :
  chronological df -> StronglySorted Z.lt (Year <$> entity c df).
Proof.
  induction 1 as [|r l Hl IH Hr]; [constructor|].
  unfold entity in *. rewrite filter_cons. case_decide as E; [|done].
  cbn. constructor; [done|]. rewrite Forall_fmap.
  rewrite Forall_forall in Hr |- *.
  intros y [Ey Hy]%list_elem_of_filter. simpl.
  apply (Hr y Hy). congruence.
Qed.

(** Sorting a chronological stream leaves every entity's rows in the
    order they already had. *)
Lemma entity_sort_values c df :
  chronological df -> entity c (sort_values df) = entity c df.
Proof.
  intros Hchr0.
  pose proof (fun c => chronological_entity c df Hchr0) as Hchr.
  assert (entity c (sort_values df) ≡ₚ entity c df) as Hperm.
  { unfold entity. by rewrite sort_values_perm. }
  apply (StronglySorted_unique_strong key_le); [| | |done].
  - intros x1 x2 H1 H2 H12 H21. rewrite Hperm in H1.
    assert (Country x1 = Country x2) as EC.
    { unfold entity in H1, H2.
      apply list_elem_of_filter in H1 as [-> _].
      by apply list_elem_of_filter in H2 as [-> _]. }
    apply key_le_same_country in H12; [|done].
    apply key_le_same_country in H21; [|done].
    apply (StronglySorted_lt_fmap_inj Year (entity c df)); auto. lia.
  - unfold entity. apply StronglySorted_filter, sort_values_sorted.
  - apply StronglySorted_year_key_le with c; [|apply Hchr].
    apply Forall_forall. intros r Hr.
    by apply list_elem_of_filter in Hr as [? _].
Qed.

Lemma elem_of_dropna x l : x ∈ dropna l <-> x ∈ l /\ lagged_notna x = true.
Proof.
  unfold dropna. rewrite !list_elem_of_In. apply List.filter_In.
Qed.

(** C1. On a chronologically ordered per-entity stream, every emitted
    row reads its six lag features from a record of the same entity
    whose year is strictly smaller than the year of the row's target
    (the record that comes just before the target's in the entity's
    stream); and an entity whose records hold no NaN gets one row for
    each of its records but the earliest, so one row fewer than it has
    records (contiguous years or not). *)
Theorem create_lagged_features_no_lookahead (df : list Row) :
  chronological df ->
  (forall row, row ∈ create_lagged_features df ->
     obs row ∈ df /\
     exists src, src ∈ df
       /\ Country src = Country (obs row)
       /\ Year src < Year (obs row)
       /\ (exists l1 l2,
            entity (Country (obs row)) df = l1 ++ src :: obs row :: l2)
       /\ Population_Growth_Rate_Lag1 row = Population_Growth_Rate src
       /\ Exports_Growth_Rate_Lag1 row = Exports_Growth_Rate src
       /\ Imports_Growth_Rate_Lag1 row = Imports_Growth_Rate src
       /\ Investment_Growth_Rate_Lag1 row = Investment_Growth_Rate src
       /\ Consumption_Growth_Rate_Lag1 row = Consumption_Growth_Rate src
       /\ Govt_Spend_Growth_Rate_Lag1 row = Govt_Spend_Growth_Rate src)
  /\ (forall c, Forall (fun r => row_notna r = true) (entity c df) ->
       let emitted :=
         filter (fun x => Country (obs x) = c) (create_lagged_features df) in
       obs <$> emitted = tail (entity c df)
       /\ length emitted = (length (entity c df) - 1)%nat).
Proof.
  intros Hchr. split.
  - intros row Hrow.
    assert (row ∈ filter (fun x => Country (obs x) = Country (obs row))
                    (create_lagged_features df)) as Hin.
    { by apply list_elem_of_filter. }
    rewrite create_lagged_features_entity, entity_sort_values in Hin by done.
    apply elem_of_dropna in Hin as [Hin Hna].
    apply elem_of_zip_shifted in Hin
      as [(r & l' & _ & ->)|(l1 & p & r & l2 & E & ->)].
    { by rewrite lagged_notna_None in Hna. }
    assert (p ∈ entity (Country r) df /\ r ∈ entity (Country r) df)
      as [Hp Hr].
    { cbn in E. rewrite E. set_solver. }
    apply list_elem_of_filter in Hp as [Hpc Hp].
    apply list_elem_of_filter in Hr as [_ Hr].
    split; [done|]. exists p. cbn. repeat split; try done.
    + pose proof (chronological_entity (Country r) df Hchr) as Hs.
      cbn in E. rewrite E, fmap_app in Hs.
      apply StronglySorted_app_1_r in Hs. cbn in Hs.
      apply StronglySorted_cons in Hs as [Hs _].
      by apply Forall_cons in Hs as [Hs _].
    + by exists l1, l2.
  - intros c Hc emitted. subst emitted.
    rewrite create_lagged_features_entity, entity_sort_values by done.
    rewrite dropna_entity by done.
    assert (obs <$> zip_with lagged (tail (entity c df))
                      (Some <$> entity c df) = tail (entity c df)) as Hobs.
    { apply obs_zip_lagged. rewrite length_fmap.
      destruct (entity c df); simpl; lia. }
    split; [done|].
    rewrite <- (length_fmap obs), Hobs.
    destruct (entity c df); simpl; lia.
Qed.

Lemma max_year_attained (l : list LaggedRow) :
  l <> [] -> exists a, a ∈ l /\ max_year l = Some (Year (obs a)).
Proof.
  induction l as [|x l IH]; [done|]. intros _.
  destruct l as [|y l].
  - exists x. split; [apply elem_of_cons; auto|done].
  - destruct IH as (a & Ha & E); [done|].
    change (max_year (x :: y :: l))
      with (Some (from_option (Z.max (Year (obs x))) (Year (obs x))
                    (max_year (y :: l)))).
    rewrite E. cbn [from_option].
    destruct (Z.max_spec (Year (obs x)) (Year (obs a))) as [[_ ->]|[_ ->]].
    + exists a. split; [apply elem_of_cons; auto|done].
    + exists x. split; [apply elem_of_cons; auto|done].
Qed.

Lemma min_year_attained (l : list LaggedRow) :
  l <> [] -> exists a, a ∈ l /\ min_year l = Some (Year (obs a)).
Proof.
  induction l as [|x l IH]; [done|]. intros _.
  destruct l as [|y l].
  - exists x. split; [apply elem_of_cons; auto|done].
  - destruct IH as (a & Ha & E); [done|].
    change (min_year (x :: y :: l))
      with (Some (from_option (Z.min (Year (obs x))) (Year (obs x))
                    (min_year (y :: l)))).
    rewrite E. cbn [from_option].
    destruct (Z.min_spec (Year (obs x)) (Year (obs a))) as [[_ ->]|[_ ->]].
    + exists x. split; [apply elem_of_cons; auto|done].
    + exists a. split; [apply elem_of_cons; auto|done].
Qed.

(** C3. The temporal splitter returns as train exactly the rows with
    year < cut and as test exactly the rows with year >= cut, both in
    input order; when both are non-empty the largest train year is
    strictly below the smallest test year. *)
Theorem temporal_train_test_split_by_cut_year
    (df : list LaggedRow) (split_year : Z) :
  let train := (temporal_train_test_split df split_year).1 in
  let test := (temporal_train_test_split df split_year).2 in
  train = filter (fun r => Year (obs r) < split_year) df
  /\ test = filter (fun r => split_year <= Year (obs r)) df
  /\ train `sublist_of` df
  /\ test `sublist_of` df
  /\ (train <> [] -> test <> [] ->
      exists M m, max_year train = Some M /\ min_year test = Some m
                  /\ M < m).
Proof.
  intros train test.
  assert (train = filter (fun r => Year (obs r) < split_year) df) as Etr.
  { apply List_filter_as_filter. intros x. apply Z.ltb_lt. }
  assert (test = filter (fun r => split_year <= Year (obs r)) df) as Ete.
  { apply List_filter_as_filter. intros x. rewrite Z.geb_le. done. }
  split; [done|]. split; [done|].
  split; [rewrite Etr; apply sublist_filter|].
  split; [rewrite Ete; apply sublist_filter|].
  intros Htr Hte.
  destruct (max_year_attained train Htr) as (a & Ha & EM).
  destruct (min_year_attained test Hte) as (b & Hb & Em).
  exists (Year (obs a)), (Year (obs b)). split; [done|]. split; [done|].
  rewrite Etr in Ha. rewrite Ete in Hb.
  apply list_elem_of_filter in Ha as [Ha _].
  apply list_elem_of_filter in Hb as [Hb _]. lia.
Qed.

Lemma gap_df_chronological : chronological gap_df.
Proof. unfold chronological. apply (bool_decide_unpack _). by vm_compute. Qed.

Lemma create_lagged_features_no_lookahead_witness :
  chronological gap_df /\
  (forall row, row ∈ create_lagged_features gap_df ->
     obs row ∈ gap_df /\
     exists src, src ∈ gap_df
       /\ Country src = Country (obs row)
       /\ Year src < Year (obs row)
       /\ (exists l1 l2,
            entity (Country (obs row)) gap_df = l1 ++ src :: obs row :: l2)
       /\ Population_Growth_Rate_Lag1 row = Population_Growth_Rate src
       /\ Exports_Growth_Rate_Lag1 row = Exports_Growth_Rate src
       /\ Imports_Growth_Rate_Lag1 row = Imports_Growth_Rate src
       /\ Investment_Growth_Rate_Lag1 row = Investment_Growth_Rate src
       /\ Consumption_Growth_Rate_Lag1 row = Consumption_Growth_Rate src
       /\ Govt_Spend_Growth_Rate_Lag1 row = Govt_Spend_Growth_Rate src)
  /\ length (filter (fun x => Country (obs x) = "B")
               (create_lagged_features gap_df)) = 1%nat.
Proof.
  pose proof (create_lagged_features_no_lookahead gap_df
                gap_df_chronological) as [H1 H2].
  split; [exact gap_df_chronological|]. split; [exact H1|].
  refine (proj2 (H2 "B" _)). by vm_compute; repeat constructor.
Defined.

(** C2 on the frame with a gap. "A" has records at 2000 and 2002 and
    none at 2001, yet the 2002 row is not dropped: it is emitted with
    the six lag columns, which the listing labels year T-1, holding the
    values recorded in 2000. *)
Theorem gap_row_is_emitted_with_older_features :
  a2002 ∈ gap_df
  /\ (forall p, p ∈ gap_df -> Country p = "A" -> Year p <> 2002 - 1)
  /\ create_lagged_features gap_df
     = [lagged a2002 (Some a2000); lagged b2001 (Some b2000)]
  /\ exists row, row ∈ create_lagged_features gap_df
       /\ obs row = a2002
       /\ Year a2000 = 2002 - 2
       /\ Population_Growth_Rate_Lag1 row = Population_Growth_Rate a2000
       /\ Exports_Growth_Rate_Lag1 row = Exports_Growth_Rate a2000
       /\ Imports_Growth_Rate_Lag1 row = Imports_Growth_Rate a2000
       /\ Investment_Growth_Rate_Lag1 row = Investment_Growth_Rate a2000
       /\ Consumption_Growth_Rate_Lag1 row = Consumption_Growth_Rate a2000
       /\ Govt_Spend_Growth_Rate_Lag1 row = Govt_Spend_Growth_Rate a2000.
Proof.
  assert (create_lagged_features gap_df
          = [lagged a2002 (Some a2000); lagged b2001 (Some b2000)]) as E
    by (by vm_compute).
  split; [|split; [|split; [exact E|]]].
  - unfold gap_df. rewrite !elem_of_cons. auto.
  - intros p. unfold gap_df. rewrite !elem_of_cons, elem_of_nil.
    intros [->|[->|[->|[->|[]]]]]; cbn; intros ?; lia || done.
  - exists (lagged a2002 (Some a2000)). split; [|done].
    rewrite E. apply elem_of_cons. auto.
Qed.

Lemma temporal_train_test_split_by_cut_year_witness :
  exists M m,
    max_year (temporal_train_test_split split_df 2002).1 = Some M
    /\ min_year (temporal_train_test_split split_df 2002).2 = Some m
    /\ M < m.
Proof.
  apply (temporal_train_test_split_by_cut_year split_df 2002);
    by vm_compute.
Defined.

End FrameFacts.

Module ApiFacts.
Import Api ApiSpec ListFacts.
Local Open Scope list_scope.

Section Runtime.
Context (float_of_str : string -> option pyfloat) (repr : json -> string).
Context (encoder : gmap string Z).
Context (model_predict : list pyfloat -> outcome pyfloat).

Local Abbreviation validate := (validate_prediction_input float_of_str repr).
Local Abbreviation predict' :=
  (predict float_of_str repr encoder model_predict).

Lemma missing_filter_spec (data : gmap string json) (f : string) :
  In f (List.filter (fun f => not_in f data) required_fields)
  <-> f ∈ required_fields /\ data !! f = None.
Proof.
  rewrite List.filter_In, <- list_elem_of_In. unfold not_in.
  destruct (data !! f); split; intros [? ?]; done.
Qed.

(** C4. A payload that lacks any of the seven required fields is
    rejected with the "Missing required fields" message, which lists
    all the absent names and only them, in the order of the required
    list; nothing is validated, whatever the other fields hold. *)
Theorem validate_reports_every_missing_field (data : gmap string json) :
  (exists f, f ∈ required_fields /\ data !! f = None) ->
  exists missing,
    validate data
    = Return (false,
              Some ("Missing required fields: "
                    ++ String.concat ", " missing)%string,
              None)
    /\ missing `sublist_of` required_fields
    /\ forall f, f ∈ missing <-> f ∈ required_fields /\ data !! f = None.
Proof.
  intros (f & Hf & Hnone).
  exists (List.filter (fun f => not_in f data) required_fields).
  split; [|split].
  - unfold validate_prediction_input.
    destruct (List.filter _ required_fields) as [|m l] eqn:E; [|done].
    exfalso. assert (In f []) as []. rewrite <- E.
    by apply missing_filter_spec.
  - rewrite (List_filter_as_filter _ (fun f => data !! f = None)).
    + apply sublist_filter.
    + intros x. unfold not_in. by destruct (data !! x).
  - intros g. rewrite list_elem_of_In. apply missing_filter_spec.
Qed.

Lemma validate_unfold (data : gmap string json) (country : json) :
  (forall f, f ∈ required_fields -> is_Some (data !! f)) ->
  data !! "Country" = Some country ->
  validate data =
    if String.eqb (strip (py_str repr country)) ""
    then Return (false, Some "Country name cannot be empty", None)
    else validate_numeric float_of_str repr numeric_fields data
           (mkValidated (strip (py_str repr country)) ∅).
Proof.
  intros Hall Hc. unfold validate_prediction_input.
  destruct (List.filter _ required_fields) as [|m l] eqn:E.
  - unfold getitem. rewrite Hc. done.
  - assert (In m (m :: l)) as Hm by (left; done).
    rewrite <- E in Hm. apply missing_filter_spec in Hm as [Hm Hnone].
    apply Hall in Hm as [? Hm]. congruence.
Qed.

(** The fields that pass are stored and the loop goes on. *)
Lemma validate_numeric_passes (done rest : list string)
    (data : gmap string json) (vd : validated) :
  Forall (passes float_of_str data) done ->
  exists vd',
    validate_numeric float_of_str repr (done ++ rest) data vd
    = validate_numeric float_of_str repr rest data vd'
    /\ v_Country vd' = v_Country vd
    /\ (forall f, f ∈ done ->
          exists raw, data !! f = Some raw
            /\ py_float float_of_str raw = Return (v_values vd' !! f))
    /\ (forall f, f ∉ done -> v_values vd' !! f = v_values vd !! f).
Proof.
  intros Hdone. revert vd.
  induction Hdone as [|field done (raw & x & Hraw & Hx & Hin) _ IH];
    intros vd.
  { exists vd. split; [done|]. split; [done|]. split; [|done].
    by intros f ?%elem_of_nil. }
  destruct (IH (mkValidated (v_Country vd) (<[field := x]> (v_values vd))))
    as (vd' & E & HC & Hin' & Hout).
  exists vd'. split; [|split; [done|split]].
  - cbn [app validate_numeric]. unfold getitem. rewrite Hraw.
    cbn [mbind outcome_bind]. rewrite Hx. cbn [mbind outcome_bind].
    rewrite Hin. done.
  - intros f Hf. destruct (decide (f ∈ done)) as [Hd|Hd].
    + by apply Hin'.
    + apply elem_of_cons in Hf as [->|Hf]; [|done].
      exists raw. split; [done|]. rewrite Hout by done.
      cbn. by rewrite lookup_insert_eq.
  - intros f Hf. apply not_elem_of_cons in Hf as [Hne Hf].
    rewrite Hout by done. cbn. by rewrite lookup_insert_ne.
Qed.

(** C5 at the documented request: Population = 150 is refused with a
    message that names the field and echoes the value, and that ends
    after "reasonable range": the bounds -100 and 100 are not in it. *)
Theorem validate_out_of_range_message_ends_at_range :
  validate payload_150
  = Return (false,
            Some ("Population value " ++ repr (JFloat (Fin (inject_Z 150)))
                  ++ " is outside reasonable range")%string,
            None).
Proof. vm_compute. reflexivity. Qed.


(** C8 on the scenario of the specification: when the model answers,
    the route returns status 200 with the rounded growth and the method
    "AI Model"; when the model raises, nothing catches the exception and
    nothing is simulated: the route raises it as well. *)
Theorem predict_has_no_fallback (code : Z) (x : pyfloat) (e : exn) :
  predict float_of_str repr {[ "Brazil" := code ]} (fun _ => Return x)
    payload_brazil
  = Return (mkResponse 200
      [("growth", JFloat (py_round2 x)); ("method", JStr "AI Model");
       ("country", JStr "Brazil")])
  /\ predict float_of_str repr {[ "Brazil" := code ]} (fun _ => Raise e)
       payload_brazil
     = Raise e.
Proof. split; vm_compute; reflexivity. Qed.

End Runtime.
End ApiFacts.

Module ApiExamples.
Import Api ApiSpec.
Local Open Scope list_scope.

Lemma validate_reports_every_missing_field_witness :
  exists missing,
    validate_prediction_input example_float_of_str example_repr
      {[ "Country" := JStr "USA"; "Population" := dec 11 10 ]}
    = Return (false,
              Some ("Missing required fields: "
                    ++ String.concat ", " missing)%string,
              None)
    /\ missing `sublist_of` required_fields
    /\ forall f, f ∈ missing <->
         f ∈ required_fields
         /\ ({[ "Country" := JStr "USA"; "Population" := dec 11 10 ]}
               : gmap string json) !! f = None.
Proof.
  apply (ApiFacts.validate_reports_every_missing_field
           example_float_of_str example_repr).
  exists "Exports". split; [|by vm_compute].
  unfold required_fields. rewrite !elem_of_cons. auto.
Defined.

(** The four sample requests of BEFORE_AFTER_COMPARISON.md. *)
Example documented_missing_fields :
  validate_prediction_input example_float_of_str example_repr
    {[ "Country" := JStr "USA"; "Population" := dec 11 10 ]}
  = Return (false,
            Some ("Missing required fields: Exports, Imports, Investment, "
                  ++ "Consumption, Govt_Spend")%string,
            None).
Proof. by vm_compute. Qed.

Example documented_invalid_type :
  validate_prediction_input example_float_of_str example_repr
    (payload (JStr "USA") (JStr "abc") (JInt 0) (JInt 0) (JInt 0) (JInt 0)
       (JInt 0))
  = Return (false, Some "Invalid Population value: must be a number", None).
Proof. by vm_compute. Qed.

Example documented_unknown_country :
  predict example_float_of_str example_repr {[ "Brazil" := 23 ]}
    (fun _ => Return (Fin 3))
    (payload (JStr "Atlantis") (JInt 1) (JInt 0) (JInt 0) (JInt 0) (JInt 0)
       (JInt 0))
  = Return (mkResponse 400
      [("error", JStr "Unknown country");
       ("message", JStr "Country 'Atlantis' not found")]).
Proof. by vm_compute. Qed.

Example documented_out_of_range :
  validate_prediction_input example_float_of_str example_repr payload_150
  = Return (false,
            Some "Population value 150.0 is outside reasonable range",
            None).
Proof. by vm_compute. Qed.

Example numeric_strings_and_blanks_are_accepted :
  validate_prediction_input example_float_of_str example_repr
    (payload (JStr "  Brazil ") (JStr "-3") (JBool true) (JInt 100)
       (JInt (-100)) (dec 5 10) (JInt 0))
  = Return (true, None,
            Some (mkValidated "Brazil"
                    (<["Govt_Spend" := Fin (inject_Z 0)]>
                     (<["Consumption" := Fin (5 # 10)]>
                      (<["Investment" := Fin (inject_Z (-100))]>
                       (<["Imports" := Fin (inject_Z 100)]>
                        (<["Exports" := Fin 1]>
                         (<["Population" := Fin (inject_Z (-3))]> ∅)))))))).
Proof. by vm_compute. Qed.

Example round_half_even_examples :
  round_half_even (3456 # 1000) = (346 # 100)%Q
  /\ round_half_even (125 # 1000) = (12 # 100)%Q
  /\ round_half_even (135 # 1000) = (14 # 100)%Q
  /\ round_half_even (-125 # 1000) = (-12 # 100)%Q.
Proof. repeat split. Qed.




End ApiExamples.

Module TimelineFacts.
Import Timeline FrontSpec.
Local Open Scope list_scope.

Lemma round_fixed2_comp (x y : Q) :
  (x == y)%Q -> round_fixed2 x = round_fixed2 y.
Proof.
  intros E. unfold round_fixed2.
  assert (Qle_bool 0 x = Qle_bool 0 y) as ->.
  { destruct (Qle_bool 0 x) eqn:Hx, (Qle_bool 0 y) eqn:Hy; try done.
    - apply Qle_bool_iff in Hx. rewrite E in Hx.
      apply Qle_bool_iff in Hx. congruence.
    - apply Qle_bool_iff in Hy. rewrite <- E in Hy.
      apply Qle_bool_iff in Hy. congruence. }
  assert (Qfloor (x * 100 + (1 # 2)) = Qfloor (y * 100 + (1 # 2))) as ->.
  { apply Qfloor_comp. by rewrite E. }
  assert (Qfloor (- x * 100 + (1 # 2)) = Qfloor (- y * 100 + (1 # 2))) as ->.
  { apply Qfloor_comp. by rewrite E. }
  done.
Qed.

Lemma hundredth (n : Z) : (n # 100 == inject_Z n * (1 # 100))%Q.
Proof. unfold Qeq, inject_Z. simpl. lia. Qed.

(** [round_fixed2] yields a number of hundredths, the nearest one. *)
Lemma round_fixed2_close (x : Q) :
  (exists n : Z, round_fixed2 x = (n # 100)%Q)
  /\ (Qabs (round_fixed2 x - x) <= 1 # 200)%Q.
Proof.
  split; [unfold round_fixed2; destruct (Qle_bool 0 x); eauto|].
  unfold round_fixed2. apply Qabs_Qle_condition.
  destruct (Qle_bool 0 x).
  - pose proof (Qfloor_le (x * 100 + (1 # 2))) as Hlo.
    pose proof (Qlt_floor (x * 100 + (1 # 2))) as Hhi.
    rewrite inject_Z_plus in Hhi. change (inject_Z 1) with 1%Q in Hhi.
    rewrite hundredth.
    set (n := inject_Z (Qfloor (x * 100 + (1 # 2)))) in *.
    split; lra.
  - pose proof (Qfloor_le (- x * 100 + (1 # 2))) as Hlo.
    pose proof (Qlt_floor (- x * 100 + (1 # 2))) as Hhi.
    rewrite inject_Z_plus in Hhi. change (inject_Z 1) with 1%Q in Hhi.
    rewrite hundredth, inject_Z_opp.
    set (n := inject_Z (Qfloor (- x * 100 + (1 # 2)))) in *.
    split; lra.
Qed.

Example forecast_of_3_456 :
  addPredictionToTimeline (Some (3456 # 1000)%Q) []
  = [ mkPoint "2025" (Some (346 # 100)%Q) prediction;
      mkPoint "2026" (Some (363 # 100)%Q) prediction ].
Proof. reflexivity. Qed.

Example negative_growth_rounds_away_from_zero :
  fixed2 (Some (-1235 # 1000)%Q) = Some (-124 # 100)%Q.
Proof. reflexivity. Qed.

Example history_2021_points :
  history_2021
  = [ mkPoint "2020" (Some (-330 # 100)%Q) historical;
      mkPoint "2021" (Some (476 # 100)%Q) historical ].
Proof. reflexivity. Qed.

(** C7. The years of the forecast. Whatever the history,
    [addPredictionToTimeline] returns its points unchanged as a prefix,
    followed by exactly two points of type prediction that are dated
    "2025" and "2026": after the history that ends in 2021 the forecast
    years are not 2022 and 2023, the years that continue it. *)
Theorem addPredictionToTimeline_appends_2025_and_2026
    (g : number) (pts : list ChartDataPoint) :
  take (length pts) (addPredictionToTimeline g pts) = pts
  /\ year <$> drop (length pts) (addPredictionToTimeline g pts)
     = ["2025"; "2026"]
  /\ type <$> drop (length pts) (addPredictionToTimeline g pts)
     = [prediction; prediction]
  /\ last (year <$> history_2021) = Some (toString 2021)
  /\ year <$> drop (length history_2021)
                (addPredictionToTimeline g history_2021)
     <> [toString (2021 + 1); toString (2021 + 2)].
Proof.
  assert (forall l, drop (length l) (addPredictionToTimeline g l)
            = addPredictionToTimeline g []) as Hdrop.
  { intros l. unfold addPredictionToTimeline. cbv zeta.
    by rewrite drop_app_length. }
  split; [|split; [|split; [|split]]].
  - unfold addPredictionToTimeline. cbv zeta. by rewrite take_app_length.
  - by rewrite Hdrop.
  - by rewrite Hdrop.
  - reflexivity.
  - rewrite Hdrop. discriminate.
Qed.

End TimelineFacts.

Module DashboardFacts.
Import Timeline Dashboard FrontSpec.
Local Open Scope list_scope.

Lemma falsy_spec (s : string) : falsy s = true <-> s = "".
Proof. apply String.eqb_eq. Qed.

Lemma incomplete_spec (s : State) : incomplete s = true <-> some_input_empty s.
Proof.
  unfold incomplete, some_input_empty.
  rewrite !orb_true_iff, !falsy_spec. tauto.
Qed.

Section Browser.
Context (error : Type) (parseFloat : string -> number).
Context (submitPrediction :
           list (string * jsval) -> PredictionResponse + error).
Context (fetchHistoricalData : string -> list HistoricalDataPoint + error).
Context (handleApiError : error -> string).

Local Abbreviation handle :=
  (handlePredict error parseFloat submitPrediction fetchHistoricalData
     handleApiError).

(** C9, as the client and the validator behave. Once the form is
    complete the handler's first request is the prediction request, whose
    body has exactly the seven fields Country, Population_Growth_Rate,
    Exports_Growth_Rate, Imports_Growth_Rate, Investment_Growth_Rate,
    Consumption_Growth_Rate and Govt_Spend_Growth_Rate, the last one
    holding the government spending input; read by the validator, whose
    six numeric names differ, that body is refused with the names it
    lacks listed under "Missing required fields" and no value is taken
    for zero. *)
Theorem request_body_fields (s : State)
    (float_of_str : string -> option Api.pyfloat)
    (repr : Api.json -> string) :
  incomplete s = false ->
  (exists more,
     (handle s).2 = SubmitPrediction (requestData parseFloat s) :: more)
  /\ requestData parseFloat s
     = zip request_wire_names
         [ VStr (selectedCountry s);
           VNum (parseFloat (populationGrowth s));
           VNum (parseFloat (exportsGrowth s));
           VNum (parseFloat (importsGrowth s));
           VNum (parseFloat (investment s));
           VNum (parseFloat (consumption s));
           VNum (parseFloat (governmentSpending s)) ]
  /\ Api.validate_prediction_input float_of_str repr
       (request_body (requestData parseFloat s))
     = Api.Return
         (false,
          Some ("Missing required fields: Population, Exports, Imports, "
                ++ "Investment, Consumption, Govt_Spend")%string,
          None).
Proof.
  intros Hc. split; [|split].
  - unfold handlePredict. rewrite Hc.
    destruct (submitPrediction _) as [response|err]; [|by eexists].
    destruct (_ || _); [|by eexists].
    destruct (fetchHistoricalData _); by eexists.
  - reflexivity.
  - vm_compute. reflexivity.
Qed.

(** C10. With the country or any indicator input empty, [handlePredict]
    returns at once: no request is issued and the state, hence the
    prediction, its method and the error, is what it was. The button is
    disabled in exactly these states and while a calculation runs. *)
Theorem handlePredict_needs_every_input (s : State) :
  (some_input_empty s -> handle s = (s, []))
  /\ (predict_button_disabled s = true
      <-> some_input_empty s \/ isCalculating s = true).
Proof.
  split.
  - intros He. apply incomplete_spec in He.
    unfold handlePredict. by rewrite He.
  - unfold predict_button_disabled, some_input_empty.
    rewrite !orb_true_iff, !falsy_spec. tauto.
Qed.

End Browser.

(** C9 as stated fails: the names on the wire are not the specified
    ones. *)
Lemma request_names_are_not_the_specified_ones :
  (requestData example_parseFloat filled_form).*1 = request_wire_names
  /\ request_wire_names <> specified_wire_names
  /\ "population_growth" ∉ (requestData example_parseFloat filled_form).*1.
Proof.
  split; [reflexivity|]. split; [discriminate|].
  cbn. rewrite !not_elem_of_cons. repeat split; try discriminate.
  apply not_elem_of_nil.
Qed.

Lemma request_body_fields_witness :
  (exists more,
     (handlePredict unit example_parseFloat
        (fun _ => inr tt) (fun _ => inr tt) (fun _ => "offline")
        filled_form).2
     = SubmitPrediction (requestData example_parseFloat filled_form) :: more)
  /\ Api.validate_prediction_input ApiSpec.example_float_of_str
       ApiSpec.example_repr
       (request_body (requestData example_parseFloat filled_form))
     = Api.Return
         (false,
          Some ("Missing required fields: Population, Exports, Imports, "
                ++ "Investment, Consumption, Govt_Spend")%string,
          None).
Proof.
  pose proof (request_body_fields unit example_parseFloat
                (fun _ => inr tt) (fun _ => inr tt) (fun _ => "offline")
                filled_form ApiSpec.example_float_of_str
                ApiSpec.example_repr eq_refl) as (H1 & _ & H3).
  exact (conj H1 H3).
Defined.

Lemma handlePredict_needs_every_input_witness :
  handlePredict unit example_parseFloat
    (fun _ => inr tt) (fun _ => inr tt) (fun _ => "offline")
    unfinished_form
  = (unfinished_form, []).
Proof.
  apply (handlePredict_needs_every_input unit example_parseFloat
           (fun _ => inr tt) (fun _ => inr tt) (fun _ => "offline")
           unfinished_form).
  unfold some_input_empty. cbn. auto 10.
Defined.

End DashboardFacts.

Module FrameLaws.
Import ListFacts Frame FrameSpec FrameTerms FrameFacts.
Local Open Scope list_scope.

Lemma StronglySorted_sublist {A} (R : relation A) (l1 l2 : list A) :
  l1 `sublist_of` l2 -> StronglySorted R l2 -> StronglySorted R l1.
Proof.
  induction 1 as [|x l1 l2 Hsub IH|x l1 l2 Hsub IH]; [done| |].
  - intros [Hx Hl]%StronglySorted_cons. apply StronglySorted_cons.
    split; [|by apply IH]. rewrite Forall_forall in Hx |- *.
    intros y Hy. apply Hx. by eapply elem_of_sublist.
  - intros [_ Hl]%StronglySorted_cons. by apply IH.
Qed.

Lemma obs_dropna_sublist (l : list Row) (ps : list (option Row)) :
  obs <$> dropna (zip_with lagged l ps) `sublist_of` l.
Proof.
  revert ps. induction l as [|r l IH]; intros [|p ps]; cbn;
    try apply sublist_nil_l.
  unfold dropna in *. cbn [List.filter].
  destruct (lagged_notna (lagged r p)); cbn.
  - apply sublist_skip, IH.
  - apply sublist_cons, IH.
Qed.

Lemma entity_elem (c : string) (df : list Row) (r : Row) :
  r ∈ entity c df <-> Country r = c /\ r ∈ df.
Proof. unfold entity. by rewrite list_elem_of_filter. Qed.

(** Where an emitted row comes from, for any frame: its target and the
    source of its lags are neighbours in the sorted rows of one entity. *)
Lemma emitted_row_neighbours df row :
  row ∈ create_lagged_features df ->
  lagged_notna row = true
  /\ exists l1 p r l2,
       entity (Country (obs row)) (sort_values df) = l1 ++ p :: r :: l2
       /\ row = lagged r (Some p).
Proof.
  intros Hrow.
  assert (row ∈ filter (fun x => Country (obs x) = Country (obs row))
                  (create_lagged_features df)) as Hin.
  { by apply list_elem_of_filter. }
  rewrite create_lagged_features_entity in Hin.
  apply elem_of_dropna in Hin as [Hin Hna]. split; [done|].
  apply elem_of_zip_shifted in Hin
    as [(r & l' & _ & ->)|(l1 & p & r & l2 & E & ->)].
  { by rewrite lagged_notna_None in Hna. }
  eauto 10.
Qed.

(** X1. Whatever the frame holds, in whatever order: the emitted rows
    come out sorted by country and year, none of them has a NaN cell,
    each target is a record of the frame, and its lags are the values
    of a record of the same entity whose year is not larger. *)
Theorem create_lagged_features_any_frame (df : list Row) :
  StronglySorted key_le (obs <$> create_lagged_features df)
  /\ forall row, row ∈ create_lagged_features df ->
       lagged_notna row = true
       /\ obs row ∈ df
       /\ exists src, src ∈ df
            /\ Country src = Country (obs row)
            /\ Year src <= Year (obs row)
            /\ row = lagged (obs row) (Some src).
Proof.
  split.
  - rewrite create_lagged_features_unfold.
    eapply StronglySorted_sublist; [apply obs_dropna_sublist|].
    apply sort_values_sorted.
  - intros row Hrow.
    destruct (emitted_row_neighbours df row Hrow)
      as (Hna & l1 & p & r & l2 & E & ->).
    cbn in E |- *.
    assert (p ∈ entity (Country r) (sort_values df)
            /\ r ∈ entity (Country r) (sort_values df)) as [Hp Hr].
    { rewrite E, !elem_of_app, !elem_of_cons. auto. }
    apply entity_elem in Hp as [Hpc Hp]. apply entity_elem in Hr as [_ Hr].
    rewrite sort_values_perm in Hp, Hr.
    split; [done|]. split; [done|]. exists p. repeat split; try done.
    apply key_le_same_country; [done|].
    pose proof (StronglySorted_filter key_le (fun x => Country x = Country r)
                  _ (sort_values_sorted df)) as Hs.
    fold (entity (Country r) (sort_values df)) in Hs. rewrite E in Hs.
    apply StronglySorted_app_1_r in Hs.
    apply StronglySorted_cons in Hs as [Hs _].
    by apply Forall_cons in Hs as [Hs _].
Qed.

Lemma key_le_antisym (a b : Row) : key_le a b -> key_le b a -> key a = key b.
Proof.
  unfold key_le, key_leb, key.
  rewrite (String.compare_antisym (Country b) (Country a)).
  destruct (String.compare (Country a) (Country b)) eqn:E; cbn; try done.
  apply String_as_OT.cmp_eq in E. rewrite E, !Z.leb_le.
  intros. f_equal. lia.
Qed.

Lemma NoDup_fmap_elem_inj {A B} (f : A -> B) (l : list A) (x y : A) :
  NoDup (f <$> l) -> x ∈ l -> y ∈ l -> f x = f y -> x = y.
Proof.
  induction l as [|a l IH]; [by intros _ ?%elem_of_nil|].
  cbn. intros [Ha Hl]%NoDup_cons.
  intros [->|Hx]%elem_of_cons [->|Hy]%elem_of_cons E; auto.
  - destruct Ha. rewrite E. by apply list_elem_of_fmap_2.
  - destruct Ha. rewrite <- E. by apply list_elem_of_fmap_2.
Qed.

Lemma distinct_keys_sort_values df :
  distinct_keys df -> distinct_keys (sort_values df).
Proof. unfold distinct_keys. by rewrite sort_values_perm. Qed.

(** With one record per entity and year, neighbours in an entity's
    sorted rows have strictly increasing years. *)
Lemma neighbours_years df c l1 p r l2 :
  distinct_keys df ->
  entity c (sort_values df) = l1 ++ p :: r :: l2 ->
  p ∈ df /\ r ∈ df /\ Country p = c /\ Country r = c /\ Year p < Year r.
Proof.
  intros Hd E.
  assert (p ∈ entity c (sort_values df) /\ r ∈ entity c (sort_values df))
    as [Hp Hr].
  { rewrite E, !elem_of_app, !elem_of_cons. auto. }
  apply entity_elem in Hp as [Hpc Hp]. apply entity_elem in Hr as [Hrc Hr].
  assert (Year p <= Year r) as Hle.
  { apply key_le_same_country; [congruence|].
    pose proof (StronglySorted_filter key_le (fun x => Country x = c)
                  _ (sort_values_sorted df)) as Hs.
    fold (entity c (sort_values df)) in Hs. rewrite E in Hs.
    apply StronglySorted_app_1_r in Hs.
    apply StronglySorted_cons in Hs as [Hs _].
    by apply Forall_cons in Hs as [Hs _]. }
  assert (key p <> key r) as Hne.
  { assert (NoDup (key <$> entity c (sort_values df))) as Hnd.
    { eapply sublist_NoDup; [apply distinct_keys_sort_values, Hd|].
      apply fmap_sublist, sublist_filter. }
    rewrite E, fmap_app in Hnd. apply NoDup_app in Hnd as (_ & _ & Hnd).
    cbn in Hnd. apply NoDup_cons in Hnd as [Hnd _].
    intros Hk. apply Hnd. rewrite Hk. apply elem_of_cons. auto. }
  rewrite sort_values_perm in Hp, Hr. repeat split; try done.
  unfold key in Hne. destruct (decide (Year p = Year r)); [|lia].
  destruct Hne. congruence.
Qed.

(** X2. The builder sorts for itself: for a frame in any order that
    holds one record per entity and year, every emitted row takes its
    lags from a record of the same entity with a strictly smaller
    year. *)
Theorem create_lagged_features_no_lookahead_any_order (df : list Row) :
  distinct_keys df ->
  forall row, row ∈ create_lagged_features df ->
    exists src, src ∈ df
      /\ Country src = Country (obs row)
      /\ Year src < Year (obs row)
      /\ row = lagged (obs row) (Some src).
Proof.
  intros Hd row Hrow.
  destruct (emitted_row_neighbours df row Hrow)
    as (_ & l1 & p & r & l2 & E & ->).
  cbn in E |- *.
  destruct (neighbours_years df _ l1 p r l2 Hd E) as (Hp & _ & Hc & _ & Hy).
  exists p. done.
Qed.

Lemma sort_values_perm_eq df1 df2 :
  distinct_keys df1 -> df1 ≡ₚ df2 -> sort_values df1 = sort_values df2.
Proof.
  intros Hd Hperm.
  apply (StronglySorted_unique_strong key_le);
    [|apply sort_values_sorted..|].
  - intros x1 x2 H1 H2 H12 H21.
    rewrite sort_values_perm in H1. rewrite sort_values_perm, <- Hperm in H2.
    apply (NoDup_fmap_elem_inj key df1); try done.
    by apply key_le_antisym.
  - by rewrite !sort_values_perm.
Qed.

(** X3. With one record per entity and year the order of the input
    rows does not matter: two frames holding the same rows give the
    same lagged frame. *)
Theorem create_lagged_features_order_independent (df1 df2 : list Row) :
  distinct_keys df1 -> df1 ≡ₚ df2 ->
  create_lagged_features df1 = create_lagged_features df2.
Proof.
  intros Hd Hperm. rewrite !create_lagged_features_unfold.
  by rewrite (sort_values_perm_eq df1 df2).
Qed.

Lemma entities_cons r l : entities (r :: l) = {[ Country r ]} ∪ entities l.
Proof. done. Qed.

Lemma difference_seen (c : string) (E D : gset string) :
  c ∈ D -> ({[c]} ∪ E) ∖ D = E ∖ ({[c]} ∪ D).
Proof.
  intros Hc. apply set_eq. intros x.
  rewrite !elem_of_difference, !elem_of_union, !elem_of_singleton.
  intuition (subst; tauto).
Qed.

Lemma difference_new (c : string) (E D : gset string) :
  c ∉ D -> ({[c]} ∪ E) ∖ D = {[c]} ∪ E ∖ ({[c]} ∪ D).
Proof.
  intros Hc. apply set_eq. intros x.
  rewrite !elem_of_union, !elem_of_difference, !elem_of_union,
    !elem_of_singleton.
  destruct (decide (x = c)); intuition (subst; tauto).
Qed.

Lemma disjoint_new (c : string) (E D : gset string) :
  ({[c]} : gset string) ## E ∖ ({[c]} ∪ D).
Proof.
  apply elem_of_disjoint. intros x.
  rewrite elem_of_difference, elem_of_union, !elem_of_singleton. tauto.
Qed.

(** Rows kept by [dropna], and the entities met for the first time. *)
Lemma shift_count (l : list Row) (last : gmap string Row) :
  complete l ->
  map_Forall (fun _ p => row_notna p = true) last ->
  (length (dropna (zip_with lagged l (shift_from (@id Row) last l)))
   + size (entities l ∖ dom last) = length l)%nat.
Proof.
  intros Hl. revert last.
  induction Hl as [|r l Hr Hl IH]; intros last Hlast.
  { cbn. replace (entities [] ∖ dom last) with (∅ : gset string); [done|].
    apply set_eq. intros x.
    rewrite elem_of_difference. unfold entities. cbn.
    rewrite elem_of_empty. tauto. }
  cbn [shift_from zip_with]. unfold dropna in *. cbn [List.filter].
  specialize (IH (<[Country r := r]> last)
                (map_Forall_insert_2 _ _ _ _ Hr Hlast)).
  rewrite dom_insert_L in IH. rewrite entities_cons.
  destruct (last !! Country r) as [p|] eqn:Hlk.
  - rewrite lagged_notna_complete; [|done|by eapply Hlast].
    cbn [length]. rewrite difference_seen by (by eapply elem_of_dom_2).
    unfold id in *. lia.
  - rewrite lagged_notna_None.
    apply not_elem_of_dom in Hlk.
    rewrite difference_new, size_union, size_singleton
      by (done || apply disjoint_new).
    cbn [length]. unfold id in *. lia.
Qed.

(** X4. A frame without NaN loses exactly one row per entity, whatever
    its order: the emitted rows and the entities add up to the rows of
    the frame. *)
Theorem create_lagged_features_drops_one_row_per_entity (df : list Row) :
  complete df ->
  (length (create_lagged_features df) + size (entities df)
   = length df)%nat.
Proof.
  intros Hc. rewrite create_lagged_features_unfold. unfold groupby_shift.
  pose proof (shift_count (sort_values df) ∅) as H.
  rewrite dom_empty_L, difference_empty_L in H.
  assert (entities (sort_values df) = entities df) as E.
  { unfold entities. by rewrite sort_values_perm. }
  rewrite E, (Permutation_length (sort_values_perm df)) in H.
  apply H.
  - unfold complete in *. by rewrite sort_values_perm.
  - apply map_Forall_empty.
Qed.

Lemma split_train_spec (df : list LaggedRow) (split_year : Z) :
  (temporal_train_test_split df split_year).1
  = filter (fun r => Year (obs r) < split_year) df.
Proof. apply List_filter_as_filter. intros x. apply Z.ltb_lt. Qed.

Lemma split_test_spec (df : list LaggedRow) (split_year : Z) :
  (temporal_train_test_split df split_year).2
  = filter (fun r => ~ Year (obs r) < split_year) df.
Proof.
  apply List_filter_as_filter. intros x. rewrite Z.geb_le. lia.
Qed.

Lemma filter_nil_iff {A} (P : A -> Prop) `{forall x, Decision (P x)}
    (l : list A) :
  filter P l = [] <-> forall x, x ∈ l -> ~ P x.
Proof.
  induction l as [|a l IH]; [by split; [intros _ ? ?%elem_of_nil|]|].
  rewrite filter_cons. case_decide as Ha.
  - split; [done|]. intros Hall. destruct (Hall a); [|done].
    apply elem_of_cons. auto.
  - rewrite IH. split.
    + intros Hall x [->|Hx]%elem_of_cons; auto.
    + intros Hall x Hx. apply Hall, elem_of_cons. auto.
Qed.

(** X5. The temporal split is a partition: the two parts together hold
    the rows of the frame, each once; no row is in both; the training
    part is empty exactly when no year lies below the cut, and the test
    part exactly when every year does. *)
Theorem temporal_train_test_split_partitions
    (df : list LaggedRow) (split_year : Z) :
  let train := (temporal_train_test_split df split_year).1 in
  let test := (temporal_train_test_split df split_year).2 in
  train ++ test ≡ₚ df
  /\ (length train + length test = length df)%nat
  /\ (forall r, r ∈ train -> r ∉ test)
  /\ (train = [] <-> forall r, r ∈ df -> split_year <= Year (obs r))
  /\ (test = [] <-> forall r, r ∈ df -> Year (obs r) < split_year).
Proof.
  intros train test. subst train test.
  rewrite split_train_spec, split_test_spec.
  assert (filter (fun r => Year (obs r) < split_year) df
          ++ filter (fun r => ~ Year (obs r) < split_year) df ≡ₚ df) as Hp.
  { apply filter_app_complement. }
  split; [done|]. split.
  { rewrite <- length_app. by rewrite Hp. }
  split.
  { intros r [Hr _]%list_elem_of_filter [Hr' _]%list_elem_of_filter. done. }
  rewrite !filter_nil_iff. split.
  - split; intros Hall r Hr; specialize (Hall r Hr); lia.
  - split; intros Hall r Hr; specialize (Hall r Hr); lia.
Qed.

(** X6. Lagging and then splitting leaks nothing into the training set:
    for a frame with one record per entity and year, every training row
    has its target year below the cut and its lags from a still earlier
    year of the same entity, while every test row has its target year
    at or after the cut. *)
Theorem split_of_lagged_frame_keeps_future_out_of_training
    (df : list Row) (split_year : Z) :
  distinct_keys df ->
  let parts :=
    temporal_train_test_split (create_lagged_features df) split_year in
  (forall row, row ∈ parts.1 ->
     exists src, src ∈ df
       /\ Country src = Country (obs row)
       /\ Year src < Year (obs row) < split_year
       /\ row = lagged (obs row) (Some src))
  /\ (forall row, row ∈ parts.2 ->
        obs row ∈ df /\ split_year <= Year (obs row)).
Proof.
  intros Hd parts. subst parts.
  rewrite split_train_spec, split_test_spec. split.
  - intros row [Hy Hrow]%list_elem_of_filter.
    destruct (emitted_row_neighbours df row Hrow)
      as (_ & l1 & p & r & l2 & E & ->).
    cbn in E, Hy |- *.
    destruct (neighbours_years df _ l1 p r l2 Hd E)
      as (Hp & _ & Hc & _ & Hlt).
    exists p. repeat split; try done.
  - intros row [Hy Hrow]%list_elem_of_filter. split; [|lia].
    destruct (emitted_row_neighbours df row Hrow)
      as (_ & l1 & p & r & l2 & E & ->).
    cbn in E |- *.
    by destruct (neighbours_years df _ l1 p r l2 Hd E) as (_ & Hr & _).
Qed.

Lemma gap_df_distinct_keys : distinct_keys gap_df.
Proof. unfold distinct_keys. apply (bool_decide_unpack _). by vm_compute. Qed.

Lemma create_lagged_features_no_lookahead_any_order_witness :
  (exists src, src ∈ gap_df
     /\ Country src = "A"
     /\ Year src < 2002
     /\ lagged a2002 (Some a2000) = lagged a2002 (Some src)).
Proof.
  refine (create_lagged_features_no_lookahead_any_order gap_df
            gap_df_distinct_keys (lagged a2002 (Some a2000)) _).
  assert (create_lagged_features gap_df
          = [lagged a2002 (Some a2000); lagged b2001 (Some b2000)]) as ->.
  { by vm_compute. }
  apply elem_of_cons. auto.
Defined.

Lemma create_lagged_features_order_independent_witness :
  create_lagged_features gap_df = create_lagged_features (reverse gap_df).
Proof.
  apply create_lagged_features_order_independent.
  - exact gap_df_distinct_keys.
  - by rewrite reverse_Permutation.
Defined.

Lemma create_lagged_features_drops_one_row_per_entity_witness :
  (length (create_lagged_features gap_df) + size (entities gap_df)
   = length gap_df)%nat.
Proof.
  apply create_lagged_features_drops_one_row_per_entity.
  unfold complete, gap_df. repeat constructor.
Defined.

Lemma split_of_lagged_frame_keeps_future_out_of_training_witness :
  (forall row,
     row ∈ (temporal_train_test_split (create_lagged_features gap_df)
              2002).1 ->
     exists src, src ∈ gap_df
       /\ Country src = Country (obs row)
       /\ Year src < Year (obs row) < 2002
       /\ row = lagged (obs row) (Some src))
  /\ (forall row,
        row ∈ (temporal_train_test_split (create_lagged_features gap_df)
                 2002).2 ->
        obs row ∈ gap_df /\ 2002 <= Year (obs row)).
Proof.
  exact (split_of_lagged_frame_keeps_future_out_of_training gap_df 2002
           gap_df_distinct_keys).
Defined.

End FrameLaws.

Module ApiLaws.
Import Api ApiSpec ApiTerms ListFacts ApiFacts.
Local Open Scope list_scope.

(** *** Stripping *)

Lemma after_prefix_spec (p s rest : list ascii) :
  after_prefix p s = Some rest <-> s = p ++ rest.
Proof.
  revert s. induction p as [|a p IH]; intros s; cbn.
  - split; [by intros [= ->]|by intros ->].
  - destruct s as [|b s]; [done|].
    destruct (Ascii.eqb a b) eqn:E.
    + apply Ascii.eqb_eq in E as ->. rewrite IH. split; [by intros ->|].
      by intros [= ->].
    + apply Ascii.eqb_neq in E. split; [done|]. intros [= ? _]. congruence.
Qed.

Lemma skip_Some (ws : list (list ascii)) (s rest : list ascii) :
  skip ws s = Some rest -> exists w, w ∈ ws /\ s = w ++ rest.
Proof.
  induction ws as [|w ws IH]; [done|]. cbn.
  destruct (after_prefix w s) as [r|] eqn:E.
  - intros [= <-]. exists w. split; [apply elem_of_cons; auto|].
    by apply after_prefix_spec.
  - intros (w' & Hw & ->)%IH. exists w'. split; [|done].
    apply elem_of_cons. auto.
Qed.

Lemma skip_None (ws : list (list ascii)) (s : list ascii) :
  skip ws s = None <-> forall w, w ∈ ws -> after_prefix w s = None.
Proof.
  induction ws as [|w ws IH]; cbn.
  - split; [|done]. by intros _ w ?%elem_of_nil.
  - destruct (after_prefix w s) as [r|] eqn:E.
    + split; [done|]. intros H. specialize (H w). rewrite E in H.
      apply H, elem_of_cons. auto.
    + rewrite IH. split.
      * intros H w' [->|Hw]%elem_of_cons; auto.
      * intros H w' Hw. apply H, elem_of_cons. auto.
Qed.

(** Nothing can be skipped in front of a text if nothing can in front
    of a longer one. *)
Lemma skip_None_prefix (ws : list (list ascii)) (u v : list ascii) :
  skip ws (u ++ v) = None -> skip ws u = None.
Proof.
  rewrite !skip_None. intros H w Hw.
  destruct (after_prefix w u) as [r|] eqn:E; [|done].
  apply after_prefix_spec in E as ->.
  specialize (H w Hw). rewrite <- app_assoc in H.
  assert (after_prefix w (w ++ r ++ v) = Some (r ++ v)) as E'
    by (by apply after_prefix_spec).
  congruence.
Qed.

Lemma skip_all_id (ws : list (list ascii)) (fuel : nat) (s : list ascii) :
  skip ws s = None -> skip_all ws fuel s = s.
Proof. destruct fuel; [done|]. cbn. by intros ->. Qed.

Lemma skip_all_suffix (ws : list (list ascii)) (fuel : nat)
    (s : list ascii) :
  exists v, s = v ++ skip_all ws fuel s.
Proof.
  revert s. induction fuel as [|fuel IH]; intros s; [by exists []|].
  cbn. destruct (skip ws s) as [rest|] eqn:E; [|by exists []].
  apply skip_Some in E as (w & _ & ->).
  destruct (IH rest) as [v Hv]. exists (w ++ v).
  by rewrite <- app_assoc, <- Hv.
Qed.

Lemma skip_all_stops (ws : list (list ascii)) (fuel : nat)
    (s : list ascii) :
  Forall (fun w => w <> []) ws ->
  (length s <= fuel)%nat ->
  skip ws (skip_all ws fuel s) = None.
Proof.
  intros Hws. revert s. induction fuel as [|fuel IH]; intros s Hs.
  - destruct s; [|cbn in Hs; lia]. cbn. apply skip_None. intros w Hw.
    rewrite Forall_forall in Hws. specialize (Hws w Hw).
    by destruct w.
  - cbn. destruct (skip ws s) as [rest|] eqn:E; [|done].
    apply IH. apply skip_Some in E as (w & Hw & ->).
    rewrite Forall_forall in Hws. specialize (Hws w Hw).
    rewrite length_app in Hs. destruct w; [done|]. cbn in Hs. lia.
Qed.

Lemma whitespace_nonempty : Forall (fun w => w <> []) whitespace.
Proof. unfold whitespace. cbn. repeat constructor; discriminate. Qed.

Lemma whitespace_rev_nonempty :
  Forall (fun w => w <> []) (@rev ascii <$> whitespace).
Proof. unfold whitespace. cbn. repeat constructor; discriminate. Qed.

Lemma lstrip_bytes_stops (s : list ascii) :
  skip whitespace (lstrip_bytes s) = None.
Proof. apply skip_all_stops; [apply whitespace_nonempty|done]. Qed.

Lemma rstrip_bytes_prefix (s : list ascii) :
  exists v, s = rstrip_bytes s ++ v.
Proof.
  unfold rstrip_bytes.
  destruct (skip_all_suffix (@rev ascii <$> whitespace) (length s) (rev s))
    as [v Hv].
  exists (rev v). rewrite <- rev_app_distr, <- Hv. by rewrite rev_involutive.
Qed.

Lemma rstrip_bytes_idemp (s : list ascii) :
  rstrip_bytes (rstrip_bytes s) = rstrip_bytes s.
Proof.
  unfold rstrip_bytes. rewrite rev_involutive. f_equal.
  apply skip_all_id, skip_all_stops; [apply whitespace_rev_nonempty|].
  by rewrite length_rev.
Qed.

Lemma strip_bytes_idemp (s : list ascii) :
  rstrip_bytes (lstrip_bytes (rstrip_bytes (lstrip_bytes s)))
  = rstrip_bytes (lstrip_bytes s).
Proof.
  assert (lstrip_bytes (rstrip_bytes (lstrip_bytes s))
          = rstrip_bytes (lstrip_bytes s)) as ->.
  { apply skip_all_id.
    destruct (rstrip_bytes_prefix (lstrip_bytes s)) as [v Hv].
    apply (skip_None_prefix _ _ v). rewrite <- Hv.
    apply lstrip_bytes_stops. }
  apply rstrip_bytes_idemp.
Qed.

(** Stripping twice is stripping once. *)
Lemma strip_idemp (s : string) : strip (strip s) = strip s.
Proof.
  unfold strip. rewrite list_ascii_of_string_of_list_ascii.
  by rewrite strip_bytes_idemp.
Qed.

Example strip_examples :
  strip "  Brazil " = "Brazil"
  /\ strip (string_of_list_ascii (utf8 [194; 160]%N)) = ""
  /\ strip (string_of_list_ascii
              (utf8 [226; 128; 131; 66; 114; 194; 160; 226; 129; 159]%N))
     = "Br"
  /\ strip (string_of_list_ascii (utf8 [195; 160; 32]%N))
     = string_of_list_ascii (utf8 [195; 160]%N).
Proof. repeat split. Qed.

Lemma in_range_finite (x : pyfloat) :
  in_range x = true <-> exists q, x = Fin q /\ (-100 <= q <= 100)%Q.
Proof.
  destruct x as [q| | |]; cbn.
  - rewrite andb_true_iff, !Qle_bool_iff. split.
    + intros [? ?]. eauto.
    + intros (q' & [= <-] & ? & ?). done.
  - split; [done|]. by intros (? & ? & _).
  - split; [done|]. by intros (? & ? & _).
  - split; [done|]. by intros (? & ? & _).
Qed.



Lemma py_float_raises (float_of_str : string -> option pyfloat)
    (raw : json) (e : exn) :
  py_float float_of_str raw = Raise e <->
  e = overflow
  /\ exists n, raw = JInt n /\ Double.float_of_int n = None.
Proof.
  unfold overflow. destruct raw as [|b|n|x|s|l|o]; cbn;
    try (split; [done|by intros (_ & n & [=] & _)]).
  destruct (Double.float_of_int n) eqn:E.
  - split; [done|]. intros (_ & n' & [= <-] & E'). congruence.
  - split; [intros [= <-]; eauto|]. by intros (-> & _).
Qed.

Section Runtime.
Context (float_of_str : string -> option pyfloat) (repr : json -> string).
Context (encoder : gmap string Z).
Context (model_predict : list pyfloat -> outcome pyfloat).

Local Abbreviation validate := (validate_prediction_input float_of_str repr).
Local Abbreviation validate_fields :=
  (validate_numeric float_of_str repr).
Local Abbreviation predict' :=
  (predict float_of_str repr encoder model_predict).

Lemma no_missing_all_present (data : gmap string json) :
  List.filter (fun f => not_in f data) required_fields = [] ->
  forall f, f ∈ required_fields -> is_Some (data !! f).
Proof.
  intros E f Hf. destruct (data !! f) as [v|] eqn:Hv; [by eexists|].
  assert (In f []) as []. rewrite <- E. by apply missing_filter_spec.
Qed.

(** The loop, when its fields exist, returns with one of two shapes or
    stops at an integer too large for a float. *)
Lemma validate_numeric_shape (fields : list string)
    (data : gmap string json) (vd : validated) :
  (forall f, f ∈ fields -> is_Some (data !! f)) ->
  (exists msg, validate_fields fields data vd
               = Return (false, Some msg, None))
  \/ (exists vd', validate_fields fields data vd
                  = Return (true, None, Some vd'))
  \/ (validate_fields fields data vd = Raise overflow
      /\ exists done field rest,
           fields = done ++ field :: rest
           /\ Forall (passes float_of_str data) done
           /\ oversized data field).
Proof.
  revert vd. induction fields as [|field fields IH]; intros vd Hall.
  { right. left. by eexists. }
  cbn [validate_numeric]. unfold getitem.
  destruct (Hall field) as [raw Hraw]; [apply elem_of_cons; auto|].
  rewrite Hraw. cbn [mbind outcome_bind].
  destruct (py_float float_of_str raw) as [[x|]|e] eqn:Hx;
    cbn [mbind outcome_bind].
  - destruct (in_range x) eqn:Hin; cbn [negb]; [|left; by eexists].
    destruct (IH (mkValidated (v_Country vd)
                    (<[field := x]> (v_values vd))))
      as [H|[H|(E & done & f & rest & -> & Hdone & Hf)]];
      [intros f Hf; apply Hall, elem_of_cons; auto|by left|by right; left|].
    right. right. split; [done|].
    exists (field :: done), f, rest. split; [done|]. split; [|done].
    constructor; [|done]. by exists raw, x.
  - left. by eexists.
  - apply py_float_raises in Hx as (-> & n & -> & Hn).
    right. right. split; [done|]. exists [], field, fields.
    split; [done|]. split; [constructor|]. by exists n.
Qed.

(** What a successful run of the loop has checked and stored. *)
Lemma validate_numeric_success (fields : list string)
    (data : gmap string json) (vd0 vd : validated) (m : option string) :
  validate_fields fields data vd0 = Return (true, m, Some vd) ->
  m = None
  /\ v_Country vd = v_Country vd0
  /\ (forall f, f ∈ fields ->
        exists raw x, data !! f = Some raw
          /\ py_float float_of_str raw = Return (Some x)
          /\ v_values vd !! f = Some x /\ in_range x = true)
  /\ (forall f, f ∉ fields -> v_values vd !! f = v_values vd0 !! f).
Proof.
  revert vd0. induction fields as [|field fields IH]; intros vd0.
  { cbn. intros [= <- <-]. split; [done|]. split; [done|].
    split; [|done]. by intros f ?%elem_of_nil. }
  cbn [validate_numeric]. unfold getitem.
  destruct (data !! field) as [raw|] eqn:Hraw; [|done].
  cbn [mbind outcome_bind].
  destruct (py_float float_of_str raw) as [[x|]|e] eqn:Hx;
    cbn [mbind outcome_bind]; [|done..].
  destruct (in_range x) eqn:Hin; cbn [negb]; [|done].
  intros (-> & HC & Hfields & Hother)%IH. cbn in HC, Hother.
  split; [done|]. split; [done|]. split.
  - intros f Hf. destruct (decide (f ∈ fields)) as [Hd|Hd].
    + by apply Hfields.
    + apply elem_of_cons in Hf as [->|Hf]; [|done].
      exists raw, x. rewrite Hother by done.
      by rewrite lookup_insert_eq.
  - intros f [Hne Hf]%not_elem_of_cons.
    rewrite Hother by done. by rewrite lookup_insert_ne.
Qed.

(** How a run of the validator begins. *)
Lemma validate_cases (data : gmap string json) :
  (exists m l,
     List.filter (fun f => not_in f data) required_fields = m :: l
     /\ validate data
        = Return (false,
                  Some ("Missing required fields: "
                        ++ String.concat ", " (m :: l))%string,
                  None))
  \/ (exists country,
        (forall f, f ∈ required_fields -> is_Some (data !! f))
        /\ data !! "Country" = Some country
        /\ validate data =
             if String.eqb (strip (py_str repr country)) ""
             then Return (false, Some "Country name cannot be empty", None)
             else validate_fields numeric_fields data
                    (mkValidated (strip (py_str repr country)) ∅)).
Proof.
  destruct (List.filter (fun f => not_in f data) required_fields)
    as [|m l] eqn:E.
  - right. pose proof (no_missing_all_present data E) as Hall.
    destruct (Hall "Country") as [country Hc].
    { unfold required_fields. apply elem_of_cons. auto. }
    exists country. split; [done|]. split; [done|].
    by apply validate_unfold.
  - left. exists m, l. split; [done|].
    unfold validate_prediction_input. by rewrite E.
Qed.

Local Abbreviation stops := (stops_at_oversized float_of_str repr).

Lemma validate_shape (data : gmap string json) :
  (exists msg, validate data = Return (false, Some msg, None))
  \/ (exists vd, validate data = Return (true, None, Some vd))
  \/ (validate data = Raise overflow /\ stops data).
Proof.
  destruct (validate_cases data)
    as [(m & l & _ & ->)|(country & Hall & Hc & ->)].
  { left. by eexists. }
  destruct (String.eqb _ "") eqn:Hne; [left; by eexists|].
  apply String.eqb_neq in Hne.
  destruct (validate_numeric_shape numeric_fields data
              (mkValidated (strip (py_str repr country)) ∅))
    as [H|[H|(E & H)]]; [|by left|by right; left|].
  { intros f Hf. apply Hall. unfold required_fields.
    apply elem_of_cons. auto. }
  right. right. split; [done|]. split; [done|]. split; [|done].
  by exists country.
Qed.

Lemma validate_raises_spec (data : gmap string json) (e : exn) :
  validate data = Raise e <-> e = overflow /\ stops data.
Proof.
  split.
  - destruct (validate_shape data) as [[msg E]|[[vd E]|[E H]]];
      rewrite E; [done..|]. by intros [= <-].
  - intros (-> & Hall & (country & Hc & Hne)
            & done & field & rest & Hsplit & Hdone & n & Hraw & Hn).
    rewrite (validate_unfold float_of_str repr data country Hall Hc).
    apply String.eqb_neq in Hne. rewrite Hne, Hsplit.
    destruct (validate_numeric_passes float_of_str repr done
                (field :: rest) data
                (mkValidated (strip (py_str repr country)) ∅) Hdone)
      as (vd' & -> & _).
    cbn [validate_numeric]. unfold getitem. rewrite Hraw.
    cbn [mbind outcome_bind py_float]. by rewrite Hn.
Qed.

Lemma validate_success_spec (data : gmap string json)
    (m : option string) (vd : validated) :
  validate data = Return (true, m, Some vd) ->
  m = None
  /\ (exists country, data !! "Country" = Some country
        /\ v_Country vd = strip (py_str repr country))
  /\ v_Country vd <> ""
  /\ strip (v_Country vd) = v_Country vd
  /\ (forall f, is_Some (v_values vd !! f) <-> f ∈ numeric_fields)
  /\ (forall f x, v_values vd !! f = Some x ->
        (exists raw, data !! f = Some raw
           /\ py_float float_of_str raw = Return (Some x))
        /\ exists q, x = Fin q /\ (-100 <= q <= 100)%Q).
Proof.
  destruct (validate_cases data)
    as [(m' & l & _ & ->)|(country & Hall & Hc & ->)]; [done|].
  destruct (String.eqb _ "") eqn:Hne; [done|].
  apply String.eqb_neq in Hne.
  intros (-> & HC & Hfields & Hother)%validate_numeric_success.
  cbn in HC, Hother.
  assert (forall f, is_Some (v_values vd !! f) <-> f ∈ numeric_fields)
    as Hdom.
  { intros f. split.
    - intros Hf. destruct (decide (f ∈ numeric_fields)); [done|].
      rewrite Hother, lookup_empty in Hf by done. by destruct Hf.
    - intros (_ & x & _ & _ & -> & _)%Hfields. by eexists. }
  split; [done|]. split; [by exists country|].
  split; [by rewrite HC|]. split; [by rewrite HC, strip_idemp|].
  split; [done|].
  intros f x Hx.
  assert (f ∈ numeric_fields) as Hf by (apply Hdom; by eexists).
  destruct (Hfields f Hf) as (raw & x' & Hraw & Hfl & Hx' & Hin).
  assert (x' = x) as -> by congruence.
  split; [by exists raw|]. by apply in_range_finite.
Qed.

Lemma feature_values_total (fields : list string)
    (values : gmap string pyfloat) :
  (forall f, f ∈ fields -> is_Some (values !! f)) ->
  exists xs, feature_values fields values = Return xs
    /\ Forall2 (fun f x => values !! f = Some x) fields xs.
Proof.
  induction fields as [|field fields IH]; intros Hall.
  { exists []. by split; [|constructor]. }
  destruct (Hall field) as [x Hx]; [apply elem_of_cons; auto|].
  destruct IH as (xs & E & HF).
  { intros f Hf. apply Hall, elem_of_cons. auto. }
  exists (x :: xs). cbn [feature_values]. unfold getitem.
  rewrite Hx. cbn [mbind outcome_bind]. rewrite E. cbn.
  split; [done|]. by constructor.
Qed.

Lemma predict_outcomes (data : gmap string json) :
  (exists msg listed,
     validate data = Return (false, Some msg, None)
     /\ predict' data
        = Return (mkResponse 400
            [("error", JStr "Invalid input"); ("message", JStr msg);
             ("required_fields", listed)]))
  \/ (exists vd,
        validate data = Return (true, None, Some vd)
        /\ encoder !! v_Country vd = None
        /\ predict' data
           = Return (mkResponse 400
               [("error", JStr "Unknown country");
                ("message",
                 JStr ("Country '" ++ v_Country vd ++ "' not found")%string)]))
  \/ (exists vd country_code xs,
        validate data = Return (true, None, Some vd)
        /\ encoder !! v_Country vd = Some country_code
        /\ Forall2
             (fun f x =>
                v_values vd !! f = Some x
                /\ in_range x = true
                /\ exists raw, data !! f = Some raw
                     /\ py_float float_of_str raw = Return (Some x))
             numeric_fields xs
        /\ predict' data
           = (prediction ← model_predict (Fin (inject_Z country_code) :: xs);
              Return (mkResponse 200
                [("growth", JFloat (py_round2 prediction));
                 ("method", JStr "AI Model");
                 ("country", JStr (v_Country vd))])))
  \/ (validate data = Raise overflow
      /\ stops data
      /\ predict' data = Raise overflow).
Proof.
  destruct (validate_shape data) as [[msg E]|[[vd E]|[E H]]].
  { left. exists msg. eexists. split; [done|]. unfold predict.
    by rewrite E. }
  2:{ right. right. right. split; [done|]. split; [done|].
      unfold predict. by rewrite E. }
  right.
  destruct (validate_success_spec data None vd E)
    as (_ & _ & _ & _ & Hdom & Hval).
  destruct (encoder !! v_Country vd) as [code|] eqn:Henc.
  - right. left.
    destruct (feature_values_total numeric_fields (v_values vd))
      as (xs & Exs & HF).
    { intros f Hf. by apply Hdom. }
    exists vd, code, xs. split; [done|]. split; [done|]. split.
    + eapply Forall2_impl; [exact HF|]. cbn. intros f x Hx.
      destruct (Hval f x Hx) as [Hraw Hq].
      split; [done|]. split; [by apply in_range_finite|done].
    + unfold predict. rewrite E. cbn [mbind outcome_bind negb subscriptable].
      rewrite Henc, Exs. done.
  - left. exists vd. split; [done|]. split; [done|].
    unfold predict. rewrite E. cbn [mbind outcome_bind negb subscriptable].
    by rewrite Henc.
Qed.

(** The validator accepts exactly the payloads that hold a country
    with something left after stripping and six numeric fields that
    pass. *)
Lemma validate_accepts_spec (data : gmap string json) :
  (exists vd, validate data = Return (true, None, Some vd))
  <-> (exists country, data !! "Country" = Some country
         /\ strip (py_str repr country) <> "")
      /\ Forall (passes float_of_str data) numeric_fields.
Proof.
  split.
  - intros [vd E].
    destruct (validate_success_spec data None vd E)
      as (_ & (country & Hc & HC) & Hne & _ & Hdom & Hval).
    split; [exists country; split; [done|by rewrite <- HC]|].
    apply Forall_forall. intros f Hf.
    destruct (proj2 (Hdom f) Hf) as [x Hx].
    destruct (Hval f x Hx) as [(raw & Hraw & Hfl) Hq].
    exists raw, x. split; [done|]. split; [done|].
    by apply in_range_finite.
  - intros [(country & Hc & Hne) Hp].
    rewrite (validate_unfold float_of_str repr data country); [|
      |done].
    + apply String.eqb_neq in Hne. rewrite Hne.
      destruct (validate_numeric_passes float_of_str repr numeric_fields []
                  data (mkValidated (strip (py_str repr country)) ∅) Hp)
        as (vd' & E & _).
      rewrite app_nil_r in E. rewrite E. by exists vd'.
    + intros f Hf. unfold required_fields in Hf.
      apply elem_of_cons in Hf as [->|Hf]; [by eexists|].
      rewrite Forall_forall in Hp.
      destruct (Hp f Hf) as (raw & _ & -> & _). by eexists.
Qed.

(** X7. What can leave the validator, given a JSON object. It returns
    a failure with a message and no data, or a success with data and no
    message, or it raises the OverflowError of [float]; no KeyError
    leaves it, the lookups coming after the missing-field test. It
    raises exactly when no field is missing, the country is not blank,
    and the first numeric field that does not pass holds an integer too
    large for a float. *)
Theorem validate_raises_only_overflow (data : gmap string json) :
  ((exists msg, validate data = Return (false, Some msg, None))
   \/ (exists vd, validate data = Return (true, None, Some vd))
   \/ validate data = Raise overflow)
  /\ forall e,
       validate data = Raise e
       <-> e = overflow
           /\ (forall f, f ∈ required_fields -> is_Some (data !! f))
           /\ (exists country, data !! "Country" = Some country
                 /\ strip (py_str repr country) <> "")
           /\ exists done field rest,
                numeric_fields = done ++ field :: rest
                /\ Forall (passes float_of_str data) done
                /\ oversized data field.
Proof.
  split.
  - destruct (validate_shape data) as [H|[H|[H _]]]; auto.
  - intros e. apply validate_raises_spec.
Qed.

(** X8. What a validated input guarantees: the country is the stripped
    text of the payload's country, not empty, with nothing left to
    strip; a value is stored for each of the six numeric fields and for
    no other key; each stored value is the float of the payload's field,
    finite and between -100 and 100. *)
Theorem validated_input_invariant (data : gmap string json)
    (m : option string) (vd : validated) :
  validate data = Return (true, m, Some vd) ->
  m = None
  /\ (exists country, data !! "Country" = Some country
        /\ v_Country vd = strip (py_str repr country))
  /\ v_Country vd <> ""
  /\ strip (v_Country vd) = v_Country vd
  /\ (forall f, is_Some (v_values vd !! f) <-> f ∈ numeric_fields)
  /\ (forall f x, v_values vd !! f = Some x ->
        (exists raw, data !! f = Some raw
           /\ py_float float_of_str raw = Return (Some x))
        /\ exists q, x = Fin q /\ (-100 <= q <= 100)%Q).
Proof. apply validate_success_spec. Qed.


(** X24. The validator accepts a payload exactly when it holds a
    country with something left after stripping and each of the six
    numeric fields holds a value that [float] reads as a number between
    -100 and 100. *)
Theorem validate_accepts_iff (data : gmap string json) :
  (exists vd, validate data = Return (true, None, Some vd))
  <-> (exists country, data !! "Country" = Some country
         /\ strip (py_str repr country) <> "")
      /\ Forall (passes float_of_str data) numeric_fields.
Proof. apply validate_accepts_spec. Qed.



End Runtime.

(** A Population of 10^309 makes [float] raise; a country that is a
    no-break space, U+00A0, is blank, and this is tested first. *)
Example oversized_integer_and_unicode_blank :
  validate_prediction_input example_float_of_str example_repr
    payload_oversized = Raise overflow
  /\ validate_prediction_input example_float_of_str example_repr
       (<["Country" := JStr (string_of_list_ascii (utf8 [194; 160]%N))]>
          payload_oversized)
     = Return (false, Some "Country name cannot be empty", None)
  /\ validate_prediction_input example_float_of_str example_repr
       (payload (JStr (string_of_list_ascii (utf8 [194; 160]%N))) JNull
          (JInt 0) (JInt 0) (JInt 0) (JInt 0) (JInt 0))
     = Return (false, Some "Country name cannot be empty", None)
  /\ validate_prediction_input example_float_of_str example_repr
       (payload (JStr "Brazil") JNull (JInt (10 ^ 309)) (JInt 0) (JInt 0)
          (JInt 0) (JInt 0))
     = Return (false, Some "Invalid Population value: must be a number",
               None).
Proof. repeat split; by vm_compute. Qed.

Lemma validated_input_invariant_witness :
  validate_prediction_input example_float_of_str example_repr
    payload_brazil
  = Return (true, None,
            Some (mkValidated "Brazil"
                    (<["Govt_Spend" := Fin (20 # 10)]>
                     (<["Consumption" := Fin (28 # 10)]>
                      (<["Investment" := Fin (35 # 10)]>
                       (<["Imports" := Fin (48 # 10)]>
                        (<["Exports" := Fin (52 # 10)]>
                         (<["Population" := Fin (11 # 10)]> ∅))))))))
  /\ strip "Brazil" = "Brazil".
Proof.
  assert (validate_prediction_input example_float_of_str example_repr
            payload_brazil
          = Return (true, None,
              Some (mkValidated "Brazil"
                      (<["Govt_Spend" := Fin (20 # 10)]>
                       (<["Consumption" := Fin (28 # 10)]>
                        (<["Investment" := Fin (35 # 10)]>
                         (<["Imports" := Fin (48 # 10)]>
                          (<["Exports" := Fin (52 # 10)]>
                           (<["Population" := Fin (11 # 10)]> ∅)))))))))
    as E by (by vm_compute).
  split; [exact E|].
  exact (proj1 (proj2 (proj2 (proj2
           (validated_input_invariant example_float_of_str example_repr
              payload_brazil None _ E))))).
Defined.



End ApiLaws.

Module TimelineLaws.
Import Timeline FrontSpec TimelineFacts.
Local Open Scope list_scope.

Lemma to_int_printable (n : Z) :
  Z.to_int n <> Decimal.Pos Decimal.Nil
  /\ Z.to_int n <> Decimal.Neg Decimal.Nil.
Proof.
  destruct n as [|p|p]; cbn; split; try discriminate.
  - intros [= E]. by apply (DecimalPos.Unsigned.to_uint_nonnil p).
  - intros [= E]. by apply (DecimalPos.Unsigned.to_uint_nonnil p).
Qed.

(** Two integers print alike only if they are equal. *)
Lemma toString_inj (m n : Z) : toString m = toString n -> m = n.
Proof.
  unfold toString. intros E.
  apply (f_equal NilZero.int_of_string) in E.
  destruct (to_int_printable m) as [Hm1 Hm2].
  destruct (to_int_printable n) as [Hn1 Hn2].
  rewrite !NilZero.isi in E by done.
  injection E as E. apply (f_equal Z.of_int) in E.
  by rewrite !DecimalZ.of_to in E.
Qed.

Lemma NoDup_fmap_toString (l : list Z) :
  NoDup (toString <$> l) <-> NoDup l.
Proof.
  split; [apply NoDup_fmap_1|].
  apply NoDup_fmap_2. intros m n. apply toString_inj.
Qed.

Lemma transformHistoricalData_years (data : list HistoricalDataPoint) :
  year <$> transformHistoricalData data = toString <$> (Year <$> data).
Proof.
  unfold transformHistoricalData. rewrite <- !list_fmap_compose.
  by apply list_fmap_ext.
Qed.

(** X12. The chart points of a history: one point per record, in the
    order of the records, each of type historical and dated with the
    record's year in decimal; the growth is the record's, taken to the
    nearest hundredth (off by 0.005 at most), and NaN stays NaN; the
    year labels are distinct exactly when the records' years are. *)
Theorem transformHistoricalData_points (data : list HistoricalDataPoint) :
  Forall2
    (fun point d =>
       year d = toString (Year point)
       /\ type d = historical
       /\ match GDP_Growth point with
          | Some x =>
              exists n : Z, growth d = Some (n # 100)%Q
                /\ (Qabs ((n # 100) - x) <= 1 # 200)%Q
          | None => growth d = None
          end)
    data (transformHistoricalData data)
  /\ (NoDup (year <$> transformHistoricalData data)
      <-> NoDup (Year <$> data)).
Proof.
  split.
  - unfold transformHistoricalData. apply Forall2_fmap_r, Forall_Forall2_diag.
    apply Forall_forall. intros point _. cbn.
    split; [done|]. split; [done|].
    destruct (GDP_Growth point) as [x|]; [|done]. cbn.
    destruct (round_fixed2_close x) as [[n Hn] Hclose].
    rewrite Hn in Hclose. exists n. split; [by rewrite Hn|]. done.
  - rewrite transformHistoricalData_years. apply NoDup_fmap_toString.
Qed.

(** X13. The labels of a chart with its forecast: after the points of
    a history with distinct years, the two forecast points bring no
    label twice exactly when no record of the history is dated 2025 or
    2026. *)
Theorem forecast_labels_collide_only_with_2025_and_2026
    (g : number) (data : list HistoricalDataPoint) :
  NoDup (Year <$> data) ->
  NoDup (year <$> addPredictionToTimeline g (transformHistoricalData data))
  <-> (2025 ∉ Year <$> data) /\ (2026 ∉ Year <$> data).
Proof.
  intros Hd. unfold addPredictionToTimeline. cbv zeta.
  rewrite fmap_app, transformHistoricalData_years. cbn [fmap list_fmap year].
  change "2025" with (toString 2025). change "2026" with (toString 2026).
  change [toString 2025; toString 2026] with (toString <$> [2025; 2026]).
  rewrite <- fmap_app, NoDup_fmap_toString, NoDup_app.
  split.
  - intros (_ & Hno & _). split; intros Hin; apply (Hno _ Hin);
      rewrite !elem_of_cons; auto.
  - intros [H5 H6]. split; [done|]. split.
    + intros y Hy. rewrite !elem_of_cons, elem_of_nil.
      intros [->|[->|[]]]; done.
    + apply NoDup_cons. split; [|apply NoDup_singleton].
      rewrite elem_of_cons, elem_of_nil. intros [E|[]]. discriminate E.
Qed.

Lemma forecast_labels_collide_only_with_2025_and_2026_witness :
  NoDup (year <$> addPredictionToTimeline (Some 3%Q)
                    (transformHistoricalData PageTerms.example_history))
  <-> (2025 ∉ Year <$> PageTerms.example_history)
      /\ (2026 ∉ Year <$> PageTerms.example_history).
Proof.
  apply (forecast_labels_collide_only_with_2025_and_2026 (Some 3%Q)
           PageTerms.example_history).
  cbn. repeat (apply NoDup_cons; split;
    [rewrite ?elem_of_cons, ?elem_of_nil; intuition discriminate|]).
  apply NoDup_nil_2.
Defined.

End TimelineLaws.

Module PageLaws.
Import Timeline Dashboard FrontSpec Page PageTerms.
Import TimelineFacts DashboardFacts.
Local Open Scope list_scope.

Lemma is_historical_negb (d : ChartDataPoint) :
  is_historical d = negb (is_prediction d).
Proof. unfold is_historical, is_prediction. by destruct (type d). Qed.

Lemma filter_historical_of_predictions (l : list ChartDataPoint) :
  forallb is_prediction l = true -> List.filter is_historical l = [].
Proof.
  induction l as [|d l IH]; [done|]. cbn [forallb List.filter].
  intros [Hd Hl]%andb_true_iff. rewrite is_historical_negb, Hd. cbn.
  by apply IH.
Qed.

Lemma filter_historical_missing (s : State) :
  history_missing s = true ->
  List.filter is_historical (historicalData s) = [].
Proof.
  unfold history_missing. intros [H|H]%orb_true_iff.
  - apply Nat.eqb_eq in H. by destruct (historicalData s).
  - by apply filter_historical_of_predictions.
Qed.

Lemma filter_historical_transform (data : list HistoricalDataPoint) :
  List.filter is_historical (transformHistoricalData data)
  = transformHistoricalData data.
Proof. induction data as [|p data IH]; [done|]. cbn. by f_equal. Qed.

Lemma filter_historical_timeline (g : number) (l : list ChartDataPoint) :
  List.filter is_historical
    (addPredictionToTimeline g (List.filter is_historical l))
  = List.filter is_historical l.
Proof.
  unfold addPredictionToTimeline. cbv zeta.
  rewrite List.filter_app. cbn. rewrite app_nil_r.
  induction l as [|d l IH]; [done|]. cbn.
  destruct (is_historical d) eqn:E; [|done]. cbn. rewrite E. by f_equal.
Qed.

Lemma filter_prediction_timeline (g : number) (l : list ChartDataPoint) :
  List.filter is_prediction
    (addPredictionToTimeline g (List.filter is_historical l))
  = forecast g.
Proof.
  unfold addPredictionToTimeline, forecast, addPredictionToTimeline.
  cbv zeta. rewrite List.filter_app. cbn.
  assert (List.filter is_prediction (List.filter is_historical l) = [])
    as ->; [|done].
  induction l as [|d l IH]; [done|]. cbn.
  destruct (is_historical d) eqn:E; [|done]. cbn.
  rewrite is_historical_negb in E. apply negb_true_iff in E. by rewrite E.
Qed.

(** [slice(-6, -2)] drops the last two points and keeps at most four of
    the points before them. *)
Lemma slice_recent {A} (pts : list A) (a b : A) :
  slice (-6) (-2) (pts ++ [a; b]) = drop (length pts - 4) pts.
Proof.
  unfold slice, slice_index. cbv zeta. cbn [Z.ltb Z.compare].
  rewrite length_app. cbn [length].
  assert (Z.to_nat (Z.max (Z.of_nat (length pts + 2) + -6) 0)
          = (length pts - 4)%nat) as -> by lia.
  assert (Z.to_nat (Z.max (Z.of_nat (length pts + 2) + -2) 0
                    - Z.max (Z.of_nat (length pts + 2) + -6) 0)
          = (length pts - (length pts - 4))%nat) as -> by lia.
  rewrite drop_app_le by lia.
  rewrite take_app_le by (rewrite length_drop; lia).
  apply take_ge. rewrite length_drop. lia.
Qed.

Lemma slice_recent_short {A} (l : list A) :
  (length l <= 2)%nat -> slice (-6) (-2) l = [].
Proof.
  intros Hl. unfold slice, slice_index. cbv zeta. cbn [Z.ltb Z.compare].
  assert (Z.to_nat (Z.max (Z.of_nat (length l) + -2) 0
                    - Z.max (Z.of_nat (length l) + -6) 0) = 0%nat)
    as -> by lia.
  done.
Qed.

(** Arithmetic that yields a number on numbers. *)
Lemma minus_is_Some (a b : number) :
  is_Some (minus a b) <-> is_Some a /\ is_Some b.
Proof.
  rewrite <- !not_eq_None_Some. destruct a as [x|], b as [y|]; cbn;
    intuition congruence.
Qed.

Lemma abs_is_Some (a : number) : is_Some (Math_abs a) <-> is_Some a.
Proof.
  rewrite <- !not_eq_None_Some. destruct a; cbn; intuition congruence.
Qed.

Lemma infinite_nonzero (x : Q) : Double.infinite x = true -> ~ (x == 0)%Q.
Proof.
  unfold Double.infinite. intros H E. rewrite E in H. by vm_compute in H.
Qed.

(** A product with a literal other than zero. *)
Lemma times_literal_is_Some (a : number) (y : Q) :
  Double.infinite (Double.round_double y) = false ->
  Qeq_bool (Double.round_double y) 0 = false ->
  is_Some (times a (Some y)) <-> is_Some a.
Proof.
  intros Hfin Hnz. destruct a as [x|]; [|by cbn].
  split; [by eexists|]. intros _. unfold times. cbn [mbind option_bind].
  cbv zeta. rewrite Hfin, orb_false_r.
  destruct (Double.infinite (Double.round_double x)) eqn:Hinf;
    [|by eexists].
  destruct (Qeq_bool (Double.round_double x * Double.round_double y) 0)
    eqn:E; [|by eexists].
  apply Qeq_bool_iff, Qmult_integral in E as [E|E].
  - by destruct (infinite_nonzero _ Hinf).
  - apply Qeq_bool_iff in E. congruence.
Qed.

(** The clamp of the confidence score. *)
Lemma clamp_bounds (c : number) :
  (is_Some (Math_max (lit 85 1) (Math_min (lit 98 1) c)) <-> is_Some c)
  /\ forall r, Math_max (lit 85 1) (Math_min (lit 98 1) c) = Some r ->
       (85 <= r <= 98)%Q.
Proof.
  destruct c as [c|]; cbn; [|split; [by split; intros [? ?]|done]].
  split; [split; intros _; by eexists|]. intros r [= <-].
  repeat match goal with
         | |- context [Qle_bool ?a ?b] =>
             let E := fresh "E" in destruct (Qle_bool a b) eqn:E
         end;
    repeat match goal with
           | H : Qle_bool _ _ = true |- _ => apply Qle_bool_iff in H
           | H : Qle_bool _ _ = false |- _ =>
               apply not_true_iff_false in H; rewrite Qle_bool_iff in H
           end;
    split; lra.
Qed.

Section Browser.
Context (error : Type) (parseFloat : string -> number).
Context (submitPrediction :
           list (string * jsval) -> PredictionResponse + error).
Context (fetchHistoricalData : string -> list HistoricalDataPoint + error).
Context (handleApiError : error -> string).
Context (generateHistoricalData : string -> list ChartDataPoint + error).
Context (toFixed2 : number -> string).

(** The confidence score [show_result] sets. *)
Lemma confidence_of_show_result (s : State) (response : PredictionResponse)
    (st : State) :
  confidenceScore
    (setIsCalculating false (show_result parseFloat s response st))
  = Math_max (lit 85 1)
      (Math_min (lit 98 1)
         (minus
            (minus (lit 100 1)
               (times
                  (Math_abs
                     (minus (parseFloat (exportsGrowth s))
                        (parseFloat (importsGrowth s))))
                  (lit 2 1)))
            (times
               (Math_abs
                  (minus (parseFloat (investment s))
                     (parseFloat (consumption s))))
               (lit 15 10)))).
Proof. reflexivity. Qed.

Local Abbreviation handle :=
  (handlePredict error parseFloat submitPrediction fetchHistoricalData
     handleApiError).
Local Abbreviation request := (requestData parseFloat).
Local Abbreviation change :=
  (handleCountryChange error fetchHistoricalData handleApiError
     generateHistoricalData).
Local Abbreviation trend := (getRecentTrend toFixed2).

(** The handler once the form is complete, with the test for the
    history under its name. *)
Lemma handlePredict_complete (s : State) :
  incomplete s = false ->
  handle s
  = match submitPrediction (request s) with
    | inr err =>
        (setIsCalculating false
           (setApiError (Some (handleApiError err)) s),
         [SubmitPrediction (request s)])
    | inl response =>
        let st :=
          setPredictionMethod (model_type response)
            (setPrediction (Some (predicted_gdp_growth response))
               (setApiError None s)) in
        if history_missing s
        then
          match fetchHistoricalData (selectedCountry s) with
          | inr err =>
              (setIsCalculating false
                 (setApiError (Some (handleApiError err)) st),
               [SubmitPrediction (request s);
                FetchHistoricalData (selectedCountry s)])
          | inl historical' =>
              (setIsCalculating false
                 (show_result parseFloat s response st),
               [SubmitPrediction (request s);
                FetchHistoricalData (selectedCountry s)])
          end
        else
          (setIsCalculating false (show_result parseFloat s response st),
           [SubmitPrediction (request s)])
    end.
Proof.
  intros Hc. unfold handlePredict. rewrite Hc.
  fold (history_missing s).
  destruct (submitPrediction _) as [response|err]; [|reflexivity].
  destruct (history_missing s); [|reflexivity].
  destruct (fetchHistoricalData _); reflexivity.
Qed.

(** X14. What [handlePredict] never touches and what it may send: the
    seven inputs are left as they were; the requests are none, the
    prediction request alone, or the prediction request followed by the
    history request for the selected country; none is sent exactly when
    an input is empty, and the history is requested only when the chart
    holds no point or forecast points only; a handler that ran has
    switched the calculating flag off again. *)
Theorem handlePredict_inputs_and_requests (s : State) :
  inputs (handle s).1 = inputs s
  /\ ((handle s).2 = []
      \/ (handle s).2 = [SubmitPrediction (request s)]
      \/ (handle s).2 = [SubmitPrediction (request s);
                         FetchHistoricalData (selectedCountry s)])
  /\ ((handle s).2 = [] <-> incomplete s = true)
  /\ (length (handle s).2 = 2%nat -> history_missing s = true)
  /\ (incomplete s = false -> isCalculating (handle s).1 = false).
Proof.
  destruct (incomplete s) eqn:Hc.
  { unfold handlePredict. rewrite Hc. cbn. intuition done. }
  rewrite (handlePredict_complete s Hc).
  destruct (submitPrediction _) as [response|err]; cbv zeta.
  - destruct (history_missing s) eqn:Hm.
    + destruct (fetchHistoricalData _); cbn; intuition done.
    + cbn. intuition done.
  - cbn. intuition done.
Qed.

(** X15. A request that fails, for a complete form. If the prediction
    request is rejected, nothing changes but the error message (and the
    calculating flag, off): the earlier prediction, its method and the
    chart stay. If the prediction arrived but the history request is
    rejected, the new prediction and its method are stored with the
    error message, while the chart, the breakdown, the confidence and
    the flag that shows the prediction stay what they were. *)
Theorem handlePredict_rejected (s : State) :
  incomplete s = false ->
  (forall err,
     submitPrediction (request s) = inr err ->
     handle s
     = (setIsCalculating false (setApiError (Some (handleApiError err)) s),
        [SubmitPrediction (request s)]))
  /\ (forall response err,
        submitPrediction (request s) = inl response ->
        history_missing s = true ->
        fetchHistoricalData (selectedCountry s) = inr err ->
        handle s
        = (setIsCalculating false
             (setApiError (Some (handleApiError err))
                (setPredictionMethod (model_type response)
                   (setPrediction (Some (predicted_gdp_growth response))
                      s))),
           [SubmitPrediction (request s);
            FetchHistoricalData (selectedCountry s)])).
Proof.
  intros Hc. rewrite (handlePredict_complete s Hc). split.
  - by intros err ->.
  - intros response err -> Hm ->. cbv zeta. by rewrite Hm.
Qed.

(** The handler on the path where every request it makes succeeds. *)
Lemma handlePredict_shown (s : State) (response : PredictionResponse) :
  incomplete s = false ->
  submitPrediction (request s) = inl response ->
  (history_missing s = true ->
   exists h, fetchHistoricalData (selectedCountry s) = inl h) ->
  (handle s).1
  = setIsCalculating false
      (show_result parseFloat s response
         (setPredictionMethod (model_type response)
            (setPrediction (Some (predicted_gdp_growth response))
               (setApiError None s)))).
Proof.
  intros Hc Hs Hf. rewrite (handlePredict_complete s Hc), Hs. cbv zeta.
  destruct (history_missing s); [|done].
  by destruct (Hf eq_refl) as [h ->].
Qed.

(** X16. A prediction that succeeds, for a complete form: the
    prediction and its method are those of the response, the error is
    cleared and the prediction is shown; the chart becomes the
    historical points it held followed by the two forecast points, so
    its historical points are unchanged and earlier forecast points are
    replaced, never piled up. *)
Theorem handlePredict_success (s : State) (response : PredictionResponse) :
  incomplete s = false ->
  submitPrediction (request s) = inl response ->
  (history_missing s = true ->
   exists h, fetchHistoricalData (selectedCountry s) = inl h) ->
  Dashboard.prediction (handle s).1
  = Some (predicted_gdp_growth response)
  /\ predictionMethod (handle s).1 = model_type response
  /\ apiError (handle s).1 = None
  /\ showPrediction (handle s).1 = true
  /\ isCalculating (handle s).1 = false
  /\ historicalData (handle s).1
     = List.filter is_historical (historicalData s)
       ++ forecast (predicted_gdp_growth response)
  /\ List.filter is_historical (historicalData (handle s).1)
     = List.filter is_historical (historicalData s)
  /\ List.filter is_prediction (historicalData (handle s).1)
     = forecast (predicted_gdp_growth response).
Proof.
  intros Hc Hs Hf. rewrite (handlePredict_shown s response Hc Hs Hf).
  cbn. repeat (split; [done|]). split.
  - apply filter_historical_timeline.
  - apply filter_prediction_timeline.
Qed.

(** X17. The history the handler fetches does not reach the chart.
    When the chart holds no point or forecast points only, a successful
    run requests the history, yet the chart it leaves holds the two
    forecast points and nothing else, whatever the history request
    returned: the later update is computed from the points of the
    render that started the handler. The next run therefore requests
    the history again. *)
Theorem handlePredict_drops_the_history_it_fetched
    (s : State) (response : PredictionResponse)
    (h : list HistoricalDataPoint) :
  incomplete s = false ->
  submitPrediction (request s) = inl response ->
  history_missing s = true ->
  fetchHistoricalData (selectedCountry s) = inl h ->
  (handle s).2 = [SubmitPrediction (request s);
                  FetchHistoricalData (selectedCountry s)]
  /\ historicalData (handle s).1 = forecast (predicted_gdp_growth response)
  /\ history_missing (handle s).1 = true.
Proof.
  intros Hc Hs Hm Hf.
  assert (historicalData (handle s).1
          = forecast (predicted_gdp_growth response)) as Hh.
  { rewrite (handlePredict_complete s Hc), Hs. cbv zeta.
    rewrite Hm, Hf. cbn. by rewrite (filter_historical_missing s Hm). }
  split; [|split; [done|]].
  - rewrite (handlePredict_complete s Hc), Hs. cbv zeta. by rewrite Hm, Hf.
  - unfold history_missing. rewrite Hh. reflexivity.
Qed.

(** X18. The confidence a successful prediction leaves is a number
    exactly when the exports, imports, investment and consumption
    inputs all parse, and then it lies between 85 and 98. *)
Theorem handlePredict_confidence (s : State) (response : PredictionResponse) :
  incomplete s = false ->
  submitPrediction (request s) = inl response ->
  (history_missing s = true ->
   exists h, fetchHistoricalData (selectedCountry s) = inl h) ->
  (is_Some (confidenceScore (handle s).1)
   <-> Forall (fun input => is_Some (parseFloat input))
         (confidence_inputs s))
  /\ forall c, confidenceScore (handle s).1 = Some c ->
       (85 <= c <= 98)%Q.
Proof.
  intros Hc Hs Hf. rewrite (handlePredict_shown s response Hc Hs Hf).
  rewrite confidence_of_show_result.
  match goal with
  | |- context [Math_min (lit 98 1) ?c] =>
      destruct (clamp_bounds c) as [Hsome Hrange]
  end.
  split; [|exact Hrange].
  rewrite Hsome, !minus_is_Some. unfold lit.
  rewrite !times_literal_is_Some, !abs_is_Some, !minus_is_Some
    by (by vm_compute).
  unfold confidence_inputs. rewrite !Forall_cons, Forall_nil.
  assert (is_Some (Some (100 # Z.to_pos 1)%Q)) by (by eexists). tauto.
Qed.

(** X19. Reset empties the six indicator inputs, so the handler does
    nothing afterwards and the button is disabled; it keeps the selected
    country and the chart, forecast points included, and resetting twice
    is resetting once. *)
Theorem handleReset_then_predict (s : State) :
  handle (handleReset s) = (handleReset s, [])
  /\ predict_button_disabled (handleReset s) = true
  /\ handleReset (handleReset s) = handleReset s
  /\ selectedCountry (handleReset s) = selectedCountry s
  /\ historicalData (handleReset s) = historicalData s
  /\ Dashboard.prediction (handleReset s) = None
  /\ showPrediction (handleReset s) = false.
Proof.
  assert (incomplete (handleReset s) = true) as Hi.
  { unfold incomplete. cbn. by rewrite orb_true_r. }
  split; [unfold handlePredict; by rewrite Hi|].
  split; [|done].
  unfold predict_button_disabled. cbn. by rewrite orb_true_r.
Qed.

(** X20. A change of country: the country is selected, one history
    request is sent, and the loading flag is off at the end; the six
    indicator inputs, the prediction and the flag that shows it are not
    touched. If the request succeeds the chart holds the transformed
    history, with no forecast point, and no error. If it fails the
    error message is stored and the chart holds the mock data, unless
    generating them throws: then the chart is left as it was and the
    handler passes the exception on. *)
Theorem handleCountryChange_outcomes (country : string) (v : View) :
  let v' := (change country v).1.1 in
  (change country v).1.2 = [FetchHistoricalData country]
  /\ selectedCountry (form v') = country
  /\ isLoadingHistory v' = false
  /\ tail (inputs (form v')) = tail (inputs (form v))
  /\ Dashboard.prediction (form v') = Dashboard.prediction (form v)
  /\ showPrediction (form v') = showPrediction (form v)
  /\ match fetchHistoricalData country with
     | inl data =>
         historyError v' = None
         /\ historicalData (form v') = transformHistoricalData data
         /\ List.filter is_prediction (historicalData (form v')) = []
         /\ (change country v).2 = None
     | inr err =>
         historyError v' = Some (handleApiError err)
         /\ match generateHistoricalData country with
            | inl mockData =>
                historicalData (form v') = mockData
                /\ (change country v).2 = None
            | inr thrown =>
                historicalData (form v') = historicalData (form v)
                /\ (change country v).2 = Some thrown
            end
     end.
Proof.
  cbv zeta. unfold handleCountryChange.
  destruct (fetchHistoricalData country) as [data|err].
  - cbn. repeat (split; [done|]). split; [|done].
    induction data as [|p data IH]; [done|]. by cbn.
  - destruct (generateHistoricalData country); cbn; intuition done.
Qed.

(** X21. A change of country followed by a prediction. Once the
    history of the country has arrived with at least one record and the
    form is complete, a successful prediction sends the prediction
    request alone, and the chart holds the transformed history followed
    by the two forecast points. *)
Theorem handleCountryChange_then_handlePredict
    (country : string) (v : View) (data : list HistoricalDataPoint)
    (response : PredictionResponse) :
  let s := form (change country v).1.1 in
  fetchHistoricalData country = inl data ->
  data <> [] ->
  incomplete s = false ->
  submitPrediction (request s) = inl response ->
  (handle s).2 = [SubmitPrediction (request s)]
  /\ historicalData (handle s).1
     = transformHistoricalData data
       ++ forecast (predicted_gdp_growth response).
Proof.
  cbv zeta. intros Hf Hd Hc Hs.
  assert (historicalData (form (change country v).1.1)
          = transformHistoricalData data) as Hh.
  { unfold handleCountryChange. by rewrite Hf. }
  assert (history_missing (form (change country v).1.1) = false) as Hm.
  { unfold history_missing. rewrite Hh. by destruct data. }
  rewrite (handlePredict_complete _ Hc), Hs. cbv zeta. rewrite Hm. cbn.
  split; [done|]. by rewrite Hh, filter_historical_transform.
Qed.

(** X22. The recent trend: there is none exactly when the chart is
    empty; a chart of one or two points gives the text of NaN, the
    average of no point; otherwise the last two points of the chart are
    left out and the average is taken over the points before them, four
    at most, the sum and the quotient in double arithmetic. *)
Theorem getRecentTrend_cases (s : State) :
  (trend s = None <-> historicalData s = [])
  /\ ((0 < length (historicalData s) <= 2)%nat ->
      trend s = Some (toFixed2 None))
  /\ (forall pts a b,
        historicalData s = pts ++ [a; b] ->
        trend s = Some (toFixed2 (average (drop (length pts - 4) pts)))).
Proof.
  unfold getRecentTrend. split; [|split].
  - destruct (historicalData s); cbn; [done|]. split; discriminate.
  - intros [H0 H2]. destruct (historicalData s) as [|d l] eqn:E;
      [cbn in H0; lia|].
    cbn [length Nat.eqb]. cbv zeta.
    by rewrite slice_recent_short.
  - intros pts a b ->. rewrite length_app. cbn [length].
    replace (length pts + 2 =? 0)%nat with false
      by (symmetry; apply Nat.eqb_neq; lia).
    cbv zeta. by rewrite slice_recent.
Qed.

(** X23. The trend shown beside a prediction does not depend on it:
    after a successful prediction it is the average, in double
    arithmetic, over the last four historical points the chart held
    before (fewer if it held fewer), and the text of NaN if it held
    none. *)
Theorem getRecentTrend_after_handlePredict
    (s : State) (response : PredictionResponse) :
  incomplete s = false ->
  submitPrediction (request s) = inl response ->
  (history_missing s = true ->
   exists h, fetchHistoricalData (selectedCountry s) = inl h) ->
  let history := List.filter is_historical (historicalData s) in
  trend (handle s).1
  = Some (toFixed2 (average (drop (length history - 4) history)))
  /\ (history = [] -> trend (handle s).1 = Some (toFixed2 None)).
Proof.
  intros Hc Hs Hf. cbv zeta.
  assert (historicalData (handle s).1
          = List.filter is_historical (historicalData s)
            ++ forecast (predicted_gdp_growth response)) as Hh.
  { rewrite (handlePredict_shown s response Hc Hs Hf). reflexivity. }
  assert (trend (handle s).1
          = Some (toFixed2
                    (average
                       (drop
                          (length (List.filter is_historical
                                     (historicalData s)) - 4)
                          (List.filter is_historical (historicalData s))))))
    as Ht.
  { unfold getRecentTrend. rewrite Hh.
    unfold forecast, addPredictionToTimeline. cbv zeta.
    rewrite app_nil_l, length_app. cbn [length].
    replace (length (List.filter is_historical (historicalData s)) + 2
             =? 0)%nat with false by (symmetry; apply Nat.eqb_neq; lia).
    by rewrite slice_recent. }
  split; [exact Ht|]. intros E. rewrite Ht, E. reflexivity.
Qed.

End Browser.

Local Abbreviation online :=
  (handlePredict unit example_parseFloat example_submit example_fetch
     example_handleApiError).
Local Abbreviation offline :=
  (handlePredict unit example_parseFloat offline_submit offline_fetch
     example_handleApiError).
Local Abbreviation half_online :=
  (handlePredict unit example_parseFloat example_submit offline_fetch
     example_handleApiError).

Lemma handlePredict_rejected_witness :
  offline filled_form
  = (setIsCalculating false (setApiError (Some "Network Error") filled_form),
     [SubmitPrediction (requestData example_parseFloat filled_form)])
  /\ half_online filled_form
     = (setIsCalculating false
          (setApiError (Some "Network Error")
             (setPredictionMethod "AI Model"
                (setPrediction (Some (Some (3456 # 1000)%Q)) filled_form))),
        [SubmitPrediction (requestData example_parseFloat filled_form);
         FetchHistoricalData "Brazil"]).
Proof.
  split.
  - exact (proj1 (handlePredict_rejected unit example_parseFloat
                    offline_submit offline_fetch example_handleApiError
                    filled_form eq_refl) tt eq_refl).
  - exact (proj2 (handlePredict_rejected unit example_parseFloat
                    example_submit offline_fetch example_handleApiError
                    filled_form eq_refl) example_response tt eq_refl eq_refl
             eq_refl).
Defined.

Lemma handlePredict_success_witness :
  historicalData (online loaded_form).1
  = List.filter is_historical (historicalData loaded_form)
    ++ forecast (Some (3456 # 1000)%Q)
  /\ length (historicalData (online loaded_form).1) = 7%nat.
Proof.
  split; [|reflexivity].
  refine (proj1 (proj2 (proj2 (proj2 (proj2 (proj2
            (handlePredict_success unit example_parseFloat example_submit
               example_fetch example_handleApiError loaded_form
               example_response _ _ _))))))).
  - reflexivity.
  - reflexivity.
  - intros _. by exists example_history.
Defined.

Lemma handlePredict_drops_the_history_it_fetched_witness :
  example_fetch "Brazil" = inl example_history
  /\ (online filled_form).2
     = [SubmitPrediction (requestData example_parseFloat filled_form);
        FetchHistoricalData "Brazil"]
  /\ historicalData (online filled_form).1
     = [ mkPoint "2025" (Some (346 # 100)%Q) Timeline.prediction;
         mkPoint "2026" (Some (363 # 100)%Q) Timeline.prediction ]
  /\ history_missing (online filled_form).1 = true.
Proof.
  split; [reflexivity|].
  apply (handlePredict_drops_the_history_it_fetched unit example_parseFloat
           example_submit example_fetch example_handleApiError filled_form
           example_response example_history); reflexivity.
Defined.

Lemma handlePredict_confidence_witness :
  (is_Some (confidenceScore (online loaded_form).1)
   <-> Forall (fun input => is_Some (example_parseFloat input))
         (confidence_inputs loaded_form))
  /\ confidenceScore (online loaded_form).1 = Some 98%Q.
Proof.
  split; [|by vm_compute].
  refine (proj1 (handlePredict_confidence unit example_parseFloat
                   example_submit example_fetch example_handleApiError
                   loaded_form example_response _ _ _)).
  - reflexivity.
  - reflexivity.
  - intros _. by exists example_history.
Defined.

Lemma handleCountryChange_then_handlePredict_witness :
  (online
     (form (handleCountryChange unit example_fetch example_handleApiError
              broken_generateHistoricalData "Brazil"
              (mkView filled_form false None)).1.1)).2
  = [SubmitPrediction
       (requestData example_parseFloat
          (form (handleCountryChange unit example_fetch
                   example_handleApiError broken_generateHistoricalData
                   "Brazil" (mkView filled_form false None)).1.1))]
  /\ historicalData
       (online
          (form (handleCountryChange unit example_fetch
                   example_handleApiError broken_generateHistoricalData
                   "Brazil" (mkView filled_form false None)).1.1)).1
     = transformHistoricalData example_history
       ++ forecast (Some (3456 # 1000)%Q).
Proof.
  apply (handleCountryChange_then_handlePredict unit example_parseFloat
           example_submit example_fetch example_handleApiError
           broken_generateHistoricalData "Brazil"
           (mkView filled_form false None) example_history
           example_response).
  - reflexivity.
  - discriminate.
  - reflexivity.
  - reflexivity.
Defined.

Lemma getRecentTrend_after_handlePredict_witness :
  getRecentTrend example_toFixed2 (online loaded_form).1 = Some "1.11"
  /\ getRecentTrend example_toFixed2 (online filled_form).1 = Some "NaN".
Proof.
  split.
  - rewrite (proj1 (getRecentTrend_after_handlePredict unit
                      example_parseFloat example_submit example_fetch
                      example_handleApiError example_toFixed2 loaded_form
                      example_response eq_refl eq_refl
                      (fun _ => ex_intro _ example_history eq_refl))).
    reflexivity.
  - apply (proj2 (getRecentTrend_after_handlePredict unit
                    example_parseFloat example_submit example_fetch
                    example_handleApiError example_toFixed2 filled_form
                    example_response eq_refl eq_refl
                    (fun _ => ex_intro _ example_history eq_refl))).
    reflexivity.
Defined.

End PageLaws.

Module DesignLaws.
Import Timeline Dashboard FrontSpec Api ApiSpec ApiLaws.
Local Open Scope list_scope.

Section Runtime.
Context (parseFloat : string -> number).
Context (float_of_str : string -> option pyfloat) (repr : json -> string).

Local Abbreviation body :=
  (fun s => request_body (Design.requestData parseFloat s)).
Local Abbreviation validate := (validate_prediction_input float_of_str repr).

(** A number of the request as the validator reads it. *)
Lemma passes_number (data : gmap string json) (f : string) (n : number) :
  data !! f = Some (to_json (VNum n)) ->
  passes float_of_str data f
  <-> exists x, n = Some x /\ (-100 <= x <= 100)%Q.
Proof.
  intros Hf. unfold passes. split.
  - intros (raw & x & Hraw & Hx & Hin).
    assert (raw = to_json (VNum n)) as -> by congruence.
    destruct n as [q|]; [|done]. cbn in Hx. injection Hx as <-.
    apply in_range_finite in Hin as (q' & [= <-] & Hq). eauto.
  - intros (x & -> & Hx). exists (JFloat (Fin x)), (Fin x).
    split; [done|]. split; [done|]. apply in_range_finite. eauto.
Qed.

(** X25. The request of the design document against the validator: it
    always carries the seven required fields, so none is ever reported
    missing; it is accepted exactly when the selected country has
    something left after stripping and each of the six indicator inputs
    reads as a number between -100 and 100; and what is then validated
    is the stripped country with, under each field, the number read
    from its input. *)
Theorem design_request_round_trip (s : State) :
  List.filter (fun f => not_in f (body s)) required_fields = []
  /\ ((exists vd, validate (body s) = Return (true, None, Some vd))
      <-> strip (selectedCountry s) <> ""
          /\ Forall (Design.reads_in_range parseFloat)
               (Design.indicators s))
  /\ forall vd,
       validate (body s) = Return (true, None, Some vd) ->
       v_Country vd = strip (selectedCountry s)
       /\ Forall2
            (fun f input =>
               exists x, parseFloat input = Some x
                 /\ v_values vd !! f = Some (Fin x))
            numeric_fields (Design.indicators s).
Proof.
  assert (body s !! "Country" = Some (JStr (selectedCountry s))) as HC
    by reflexivity.
  assert (Forall2 (fun f input =>
            body s !! f = Some (to_json (VNum (parseFloat input))))
            numeric_fields (Design.indicators s)) as Hlook.
  { unfold numeric_fields, Design.indicators.
    repeat (constructor; [reflexivity|]). constructor. }
  split; [reflexivity|]. split.
  - rewrite (validate_accepts_spec float_of_str repr). split.
    + intros [(country & Hc & Hne) Hp]. split.
      * rewrite HC in Hc. by injection Hc as <-.
      * clear HC Hc Hne. revert Hp.
        induction Hlook as [|f input fs ins Hf _ IH]; [done|].
        intros [Hp Hps]%Forall_cons. constructor; [|by apply IH].
        by apply (passes_number _ f _ Hf).
    + intros [Hne Hin]. split; [by exists (JStr (selectedCountry s))|].
      clear HC Hne. revert Hin.
      induction Hlook as [|f input fs ins Hf _ IH]; [done|].
      intros [Hi His]%Forall_cons. constructor; [|by apply IH].
      by apply (passes_number _ f _ Hf).
  - intros vd E.
    destruct (validate_success_spec float_of_str repr (body s) None vd E)
      as (_ & (country & Hc & HCv) & _ & _ & Hdom & Hval).
    rewrite HC in Hc. injection Hc as <-. split; [done|].
    clear HC HCv E.
    assert (forall f, f ∈ numeric_fields -> is_Some (v_values vd !! f))
      as Hdom' by (intros f; apply Hdom).
    clear Hdom. revert Hdom'.
    induction Hlook as [|f input fs ins Hf _ IH]; [constructor|].
    intros Hdom. constructor.
    + destruct (Hdom f) as [x Hx]; [apply elem_of_cons; auto|].
      destruct (Hval f x Hx) as [(raw & Hraw & Hfl) _].
      rewrite Hf in Hraw. injection Hraw as <-.
      destruct (parseFloat input) as [q|]; [|done].
      cbn in Hfl. injection Hfl as <-. by exists q.
    + apply IH. intros f' Hf'. apply Hdom, elem_of_cons. auto.
Qed.

End Runtime.

End DesignLaws.

Module BeforeLaws.
Import Api ApiSpec ApiTerms ApiLaws.
Local Open Scope list_scope.

Section Runtime.
Context (float_of_str : string -> option pyfloat) (repr : json -> string).
Context (encoder : gmap string Z).
Context (model_predict : list pyfloat -> outcome pyfloat).

Local Abbreviation validate := (validate_prediction_input float_of_str repr).
Local Abbreviation after :=
  (Api.predict float_of_str repr encoder model_predict).
Local Abbreviation before :=
  (Before.predict float_of_str encoder model_predict).


Lemma float_fields_raise (data : gmap string json) (fields : list string)
    (f : string) :
  f ∈ fields ->
  (forall raw, data !! f = Some raw ->
     py_float float_of_str raw = Return None) ->
  exists e, Before.float_fields float_of_str data fields = inr e.
Proof.
  intros Hf Hbad. induction fields as [|g fields IH];
    [by apply elem_of_nil in Hf|].
  cbn [Before.float_fields].
  destruct (Before.float_field float_of_str data g) as [x|e] eqn:Eg;
    [|by eexists].
  apply elem_of_cons in Hf as [->|Hf].
  - unfold Before.float_field in Eg.
    destruct (data !! g) as [raw|] eqn:Hraw; [|done].
    rewrite (Hbad raw eq_refl) in Eg. by destruct raw.
  - destruct (IH Hf) as [e ->]. by eexists.
Qed.

Lemma before_raises_on (data : gmap string json) (f : string) :
  f ∈ required_fields ->
  (forall raw, data !! f = Some raw ->
     f <> "Country" /\ py_float float_of_str raw = Return None) ->
  exists e, before data = inr e.
Proof.
  intros Hf Hbad. unfold Before.predict.
  destruct (data !! "Country") as [country|] eqn:Hc; [|by eexists].
  destruct (Before.transform encoder country) as [code|e]; [|by eexists].
  assert (f ∈ numeric_fields) as Hf'.
  { unfold required_fields in Hf. apply elem_of_cons in Hf as [->|Hf];
      [|done]. by destruct (Hbad country Hc). }
  destruct (float_fields_raise data numeric_fields f Hf') as [e ->];
    [|by eexists].
  intros raw Hraw. by apply Hbad.
Qed.

(** X26. What validation changed for a bad payload, given a JSON
    object. If one of the seven fields is missing, or one of the six
    numeric fields holds something [float] refuses with a ValueError or
    TypeError, the route without validation raises (answered with
    status 500), and the route with validation answers with status 400
    labelled "Invalid input", unless a numeric field holding an integer
    too large for a float is reached first: then [float] raises its
    OverflowError, which leaves the route with validation too. *)
Theorem validation_turns_crashes_into_400
    (data : gmap string json) (f : string) :
  f ∈ required_fields ->
  (forall raw, data !! f = Some raw ->
     f <> "Country" /\ py_float float_of_str raw = Return None) ->
  (exists e, before data = inr e)
  /\ ((exists msg listed,
         after data
         = Return (mkResponse 400
             [("error", JStr "Invalid input"); ("message", JStr msg);
              ("required_fields", listed)]))
      \/ (after data = Raise overflow
          /\ exists field, field ∈ numeric_fields /\ oversized data field)).
Proof.
  intros Hf Hbad. split; [by apply (before_raises_on data f)|].
  assert (~ exists vd, validate data = Return (true, None, Some vd))
    as Hrefused.
  { intros [(country & Hc & _) Hp]%validate_accepts_spec.
    unfold required_fields in Hf. apply elem_of_cons in Hf as [->|Hf].
    - by destruct (Hbad country Hc).
    - rewrite Forall_forall in Hp.
      destruct (Hp f Hf) as (raw & x & Hraw & Hx & _).
      destruct (Hbad raw Hraw) as [_ Hnone]. congruence. }
  destruct (predict_outcomes float_of_str repr encoder model_predict data)
    as [(msg & listed & _ & E)|[(vd & Hv & _)|
        [(vd & code & xs & Hv & _)|(E & Hs & Ep)]]].
  - left. by exists msg, listed.
  - destruct Hrefused. by exists vd.
  - destruct Hrefused. by exists vd.
  - right. split; [done|].
    destruct Hs as (_ & _ & done & field & rest & Hsplit & _ & Hover).
    exists field. split; [|done]. rewrite Hsplit.
    apply elem_of_app. right. apply elem_of_cons. auto.
Qed.


End Runtime.

Lemma validation_turns_crashes_into_400_witness :
  (exists e,
     Before.predict example_float_of_str {[ "Brazil" := 23 ]}
       (fun _ => Return (Fin 3))
       (payload (JStr "Brazil") (JStr "abc") (JInt 0) (JInt 0) (JInt 0)
          (JInt 0) (JInt 0)) = inr e)
  /\ ((exists msg listed,
         Api.predict example_float_of_str example_repr {[ "Brazil" := 23 ]}
           (fun _ => Return (Fin 3))
           (payload (JStr "Brazil") (JStr "abc") (JInt 0) (JInt 0) (JInt 0)
              (JInt 0) (JInt 0))
         = Return (mkResponse 400
             [("error", JStr "Invalid input"); ("message", JStr msg);
              ("required_fields", listed)]))
      \/ (Api.predict example_float_of_str example_repr {[ "Brazil" := 23 ]}
            (fun _ => Return (Fin 3))
            (payload (JStr "Brazil") (JStr "abc") (JInt 0) (JInt 0) (JInt 0)
               (JInt 0) (JInt 0))
          = Raise overflow
          /\ exists field,
               field ∈ numeric_fields
               /\ oversized
                    (payload (JStr "Brazil") (JStr "abc") (JInt 0) (JInt 0)
                       (JInt 0) (JInt 0) (JInt 0)) field)).
Proof.
  apply (validation_turns_crashes_into_400 example_float_of_str example_repr
           {[ "Brazil" := 23 ]} (fun _ => Return (Fin 3))
           (payload (JStr "Brazil") (JStr "abc") (JInt 0) (JInt 0) (JInt 0)
              (JInt 0) (JInt 0)) "Population").
  - unfold required_fields. rewrite !elem_of_cons. auto.
  - intros raw Hraw. split; [discriminate|].
    vm_compute in Hraw. injection Hraw as <-. reflexivity.
Defined.


End BeforeLaws.
